(** * action-request-review: the setup and request sequences and their helper library

    A shallow embedding of [utils.js] and of the two entry scripts (the setup
    script that defines [checkIssues], [cloneProject] and [prepareBranch], and
    the request script that compiles, scans and opens the pull request),
    followed by the properties of the specification that were checked on it.

    Conventions of the embedding:
    - JavaScript strings are [string] (a sequence of bytes; the code only
      inspects ASCII characters);
    - integers that come from outside (HTTP status, process exit code, issue
      and run numbers) are [Z];
    - a function that may [throw] returns a [completion];
    - subprocesses and the forge API are oracles; every call is appended to a
      trace so that theorems can speak about what was executed;
    - console output ([core.info], log groups, colours) is not modelled,
      except the dumps and warnings that belong to an error path. *)

From Stdlib Require Import ZArith NArith Ascii DecimalString.
From stdpp Require Import base strings list gmap.

Local Open Scope Z_scope.

(** ** JavaScript values used by the code *)

Module JS.

(** The double quote character, which the messages of the code contain. *)
Definition dq : string := String "034"%char EmptyString.

Inductive exception :=
| Error (message : string)
| ReferenceError (message : string)
| TypeError (message : string)
| SyntaxError (message : string).

(** How a call ends: [return a] or [throw e]. *)
Inductive completion (A : Type) :=
| Return (a : A)
| Throw (e : exception).
Arguments Return {A} a.
Arguments Throw {A} e.

Definition message (e : exception) : string :=
  match e with
  | Error m | ReferenceError m | TypeError m | SyntaxError m => m
  end.

(** Template-literal rendering of an integer: [`${n}`]. *)
Definition string_of_Z (z : Z) : string :=
  NilZero.string_of_int (Z.to_int z).

(** [String.prototype.toLowerCase] on ASCII letters. *)
Definition lower_char (c : ascii) : ascii :=
  let n := nat_of_ascii c in
  if ((65 <=? n)%nat && (n <=? 90)%nat)%bool then ascii_of_nat (n + 32) else c.

Fixpoint toLowerCase (s : string) : string :=
  match s with
  | EmptyString => EmptyString
  | String c s' => String (lower_char c) (toLowerCase s')
  end.

(** [x.startsWith(p)] *)
Definition startsWith (x p : string) : bool := String.prefix p x.

(** [s.split(sep)] for a one-character separator: never empty, the empty
    string splits into one empty token. *)
Fixpoint split (sep : ascii) (s : string) : list string :=
  match s with
  | EmptyString => [EmptyString]
  | String c s' =>
      if Ascii.eqb c sep then EmptyString :: split sep s'
      else match split sep s' with
           | tok :: toks => String c tok :: toks
           | [] => [String c EmptyString]
           end
  end.

(** *** Numbers

    A non-negative JavaScript number that came from a string of decimal
    digits: a double, hence exact below 2^53 and rounded to the nearest
    double (ties to even) above; from 2^1024 on it is [Infinity]. *)
Inductive number := Finite (n : N) | Infinity.

Definition is_digit (c : ascii) : bool :=
  let n := nat_of_ascii c in ((48 <=? n)%nat && (n <=? 57)%nat)%bool.

Definition digit_value (c : ascii) : N := N_of_ascii c - 48.

Fixpoint decimal_value_from (acc : N) (s : string) : N :=
  match s with
  | EmptyString => acc
  | String c s' => decimal_value_from (acc * 10 + digit_value c)%N s'
  end.

Definition decimal_value (s : string) : N := decimal_value_from 0%N s.

Definition to_double (n : N) : number :=
  let bits := N.size n in
  if (bits <=? 53)%N then Finite n
  else
    let sh := (bits - 53)%N in
    let q := N.shiftr n sh in
    let r := N.land n (N.ones sh) in
    let half := N.shiftl 1 (sh - 1) in
    let q' := if (r <? half)%N then q
              else if (half <? r)%N then (q + 1)%N
              else if N.even q then q else (q + 1)%N in
    let v := N.shiftl q' sh in
    if (N.shiftl 1 1024 <=? v)%N then Infinity else Finite v.

(** Unary plus on a captured group of digits: [+matched[i]]. *)
Definition to_Number (digits : string) : number := to_double (decimal_value digits).

End JS.
Import JS.

(** ** JSON text of an array of strings

    [saveStates] writes [JSON.stringify(Object.keys(states))] and
    [restoreStates] reads it back with [JSON.parse]. [stringify] is
    JSON.stringify on an array of strings. [parse] is JSON.parse on the
    texts of that shape (an array of string literals with the standard
    escapes, no insignificant white space); on any other text it answers
    [None], which is a SyntaxError for malformed text and outside this model
    for well-formed JSON of another shape. *)

Module JSON.

Definition hex_char (n : N) : ascii :=
  if (n <? 10)%N then ascii_of_N (48 + n) else ascii_of_N (87 + n).

Definition hex_value (c : ascii) : option N :=
  let n := N_of_ascii c in
  if ((48 <=? n) && (n <=? 57))%N then Some (n - 48)%N
  else if ((97 <=? n) && (n <=? 102))%N then Some (n - 87)%N
  else if ((65 <=? n) && (n <=? 70))%N then Some (n - 55)%N
  else None.

(** QuoteJSONString, one character at a time. *)
Definition quote_char (c : ascii) : string :=
  let n := N_of_ascii c in
  if (n =? 34)%N then "\" +:+ dq
  else if (n =? 92)%N then "\\"
  else if (n =? 8)%N then "\b"
  else if (n =? 12)%N then "\f"
  else if (n =? 10)%N then "\n"
  else if (n =? 13)%N then "\r"
  else if (n =? 9)%N then "\t"
  else if (n <? 32)%N
       then "\u00" +:+ String (hex_char (n / 16)) (String (hex_char (n mod 16)) EmptyString)
  else String c EmptyString.

Fixpoint quote_body (s : string) : string :=
  match s with
  | EmptyString => EmptyString
  | String c s' => quote_char c +:+ quote_body s'
  end.

Definition quote (s : string) : string := dq +:+ quote_body s +:+ dq.

Definition stringify (keys : list string) : string :=
  "[" +:+ String.concat "," (map quote keys) +:+ "]".

(** The reader is a one-pass automaton over the text. *)
Inductive pstate :=
| PStart                                  (* before the opening bracket *)
| PFirst                                  (* after the opening bracket *)
| PNext                                   (* after a comma *)
| PString (acc : string)                  (* inside a string literal *)
| PEscape (acc : string)                  (* after a backslash *)
| PHex (acc : string) (got : list N)      (* inside a \u escape *)
| PAfter                                  (* after a closing quote *)
| PEnd.                                   (* after the closing bracket *)

Definition snoc (acc : string) (c : ascii) : string := acc +:+ String c EmptyString.

Definition unescape (c : ascii) : option ascii :=
  let n := N_of_ascii c in
  if (n =? 34)%N then Some c
  else if (n =? 92)%N then Some c
  else if (n =? 47)%N then Some c
  else if (n =? 98)%N then Some (ascii_of_N 8)
  else if (n =? 102)%N then Some (ascii_of_N 12)
  else if (n =? 110)%N then Some (ascii_of_N 10)
  else if (n =? 114)%N then Some (ascii_of_N 13)
  else if (n =? 116)%N then Some (ascii_of_N 9)
  else None.

Definition code_unit (digits : list N) : N :=
  foldl (fun acc d => (acc * 16 + d)%N) 0%N digits.

Definition step (st : pstate) (done : list string) (c : ascii)
  : option (pstate * list string) :=
  let n := N_of_ascii c in
  match st with
  | PStart => if (n =? 91)%N then Some (PFirst, done) else None
  | PFirst =>
      if (n =? 93)%N then Some (PEnd, done)
      else if (n =? 34)%N then Some (PString EmptyString, done)
      else None
  | PNext => if (n =? 34)%N then Some (PString EmptyString, done) else None
  | PString acc =>
      if (n =? 34)%N then Some (PAfter, done ++ [acc])
      else if (n =? 92)%N then Some (PEscape acc, done)
      else if (n <? 32)%N then None
      else Some (PString (snoc acc c), done)
  | PEscape acc =>
      match unescape c with
      | Some d => Some (PString (snoc acc d), done)
      | None => if (n =? 117)%N then Some (PHex acc [], done) else None
      end
  | PHex acc got =>
      match hex_value c with
      | None => None
      | Some h =>
          if (length got <? 3)%nat then Some (PHex acc (got ++ [h]), done)
          else
            let v := code_unit (got ++ [h]) in
            if (v <? 128)%N then Some (PString (snoc acc (ascii_of_N v)), done)
            else None
      end
  | PAfter =>
      if (n =? 44)%N then Some (PNext, done)
      else if (n =? 93)%N then Some (PEnd, done)
      else None
  | PEnd => None
  end.

Fixpoint parse_from (st : pstate) (done : list string) (text : string)
  : option (list string) :=
  match text with
  | EmptyString => match st with PEnd => Some done | _ => None end
  | String c text' =>
      match step st done c with
      | Some (st', done') => parse_from st' done' text'
      | None => None
      end
  end.

Definition parse (text : string) : option (list string) := parse_from PStart [] text.

End JSON.

(** ** utils.js *)

Module Utils.

Definition mainDir : string := "project-main".
Definition testDir : string := "project-tests".

(** *** Review type and project reference *)

Definition usage : string :=
  "Review request types must start with " +:+ dq +:+ "s" +:+ dq +:+
  " for synchronous code reviews (default type) or " +:+ dq +:+ "a" +:+ dq +:+
  " for pre-approved asynchronous code reviews.".

(** [checkRequestType]; [type] is what [core.getInput('type')] gave. *)
Definition checkRequestType (type : string) : completion string :=
  match type with
  | EmptyString =>
      Throw (Error ("Missing required review request type. " +:+ usage))
  | String c _ =>
      if (Ascii.eqb c "s" || Ascii.eqb c "S")%bool then Return "Synchronous"
      else if (Ascii.eqb c "a" || Ascii.eqb c "A")%bool then Return "Asynchronous"
      else Throw (Error ("The value " +:+ dq +:+ type +:+ dq +:+
                         " is not a valid code review type. " +:+ usage))
  end.

(** The greedy [\d*] at the head of a string, and what follows it. *)
Fixpoint span_digits (s : string) : string * string :=
  match s with
  | EmptyString => (EmptyString, EmptyString)
  | String c s' =>
      if is_digit c then let '(d, rest) := span_digits s' in (String c d, rest)
      else (EmptyString, s)
  end.

Definition is_project_digit (c : ascii) : bool :=
  let n := nat_of_ascii c in ((49 <=? n)%nat && (n <=? 52)%nat)%bool.

(** [version.match(/^v([1-4])\.(\d+)\.(\d+)$/)]: the three captured groups,
    or [None] for [null]. A dot is not a digit, so the greedy [\d+] never
    has to give characters back. *)
Definition match_version (version : string) : option (string * string * string) :=
  match version with
  | String "v" (String p (String "." rest)) =>
      if is_project_digit p then
        match span_digits rest with
        | (String r0 r, String "." rest') =>
            match span_digits rest' with
            | (String q0 q, EmptyString) =>
                Some (String p EmptyString, String r0 r, String q0 q)
            | _ => None
            end
        | _ => None
        end
      else None
  | _ => None
  end.

Record context := { ctx_owner : string; ctx_repo : string }.

Record details := {
  type : string;
  owner : string;
  mainRepo : string;
  testRepo : string;
  project : number;
  reviews : number;
  patches : number;
  version : string
}.

Definition parseProject (ctx : context) (type_input ref : string) : completion details :=
  match checkRequestType type_input with
  | Throw e => Throw e
  | Return ty =>
      let tokens := split "/" ref in
      match tokens !! (length tokens - 1)%nat with
      | None => Throw (TypeError "Cannot read properties of undefined (reading 'match')")
      | Some version =>
          match match_version version with
          | Some (m1, m2, m3) =>
              Return {| type := ty;
                        owner := ctx_owner ctx;
                        mainRepo := ctx_owner ctx +:+ "/" +:+ ctx_repo ctx;
                        testRepo := ctx_owner ctx +:+ "/" +:+ testDir;
                        project := to_Number m1;
                        reviews := to_Number m2;
                        patches := to_Number m3;
                        version := version |}
          | None =>
              Throw (Error ("Unable to parse project information from: " +:+ ref))
          end
      end
  end.

(** *** The outside world

    Subprocesses ([exec.exec]) and the forge API ([octokit]) are oracles.
    The exit code of a command may depend on everything that ran before
    it, so the subprocess oracle reads the trace. *)

Record response (D : Type) := { status : Z; data : D }.
Arguments status {D} r.
Arguments data {D} r.

(** What an awaited API call gives: a response, or a rejection that is
    thrown at the [await]. *)
Inductive reply (D : Type) :=
| Resolved (r : response D)
| Rejected (e : exception).
Arguments Resolved {D} r.
Arguments Rejected {D} e.

Record release := {
  rel_html_url : string;
  rel_tag_name : string;
  rel_created_at : string
}.

Record workflow_run := {
  run_event : string;
  run_name : string;
  run_head_branch : option string;
  run_status : string;
  run_conclusion : option string;
  run_number : Z;
  run_id : Z;
  run_html_url : string
}.

(** The [pull_request] member of an issue; the code asks whether it has
    an [html_url] key. *)
Record pull_ref := { ref_html_url : option string }.

Record issue := {
  issue_number : Z;
  issue_html_url : string;
  issue_state : string;
  issue_locked : bool;
  issue_active_lock_reason : option string;
  issue_pull_request : option pull_ref
}.

Record milestone := { ms_number : Z; ms_title : string }.

Record label := { label_name : string }.

Record pull := {
  pull_number : Z;
  pull_html_url : string;
  pull_state : string;
  pull_draft : bool;
  pull_labels : option (list label);
  pull_created_at : option string;
  pull_closed_at : option string
}.

Inductive event :=
| Run (command : string) (param : list string) (chdir : option string)
      (result : completion Z)
| Request (endpoint : string)
| Info (text : string)
| Dump (what : string)
| Warning (text : string)
| SetFailed (text : string).

Record state := { trace : list event; warnings : nat }.

Definition initial : state := {| trace := []; warnings := 0 |}.

Record world := {
  exec : list event -> string -> list string -> option string -> completion Z;
  repos_getReleaseByTag : context -> string -> reply release;
  actions_listWorkflowRuns : context -> reply (list workflow_run);
  issues_listForRepo : context -> string -> reply (list issue);
  issues_listMilestones : context -> reply (list milestone);
  issues_createMilestone : context -> string -> string -> reply milestone;
  pulls_list : context -> reply (list pull)
}.

(** *** Sequencing with a trace and exceptions *)

Definition M (A : Type) : Type := state -> completion A * state.

Definition ret {A} (a : A) : M A := fun st => (Return a, st).
Definition throw {A} (e : exception) : M A := fun st => (Throw e, st).

Definition bind {A B} (m : M A) (k : A -> M B) : M B :=
  fun st =>
    match m st with
    | (Return a, st') => k a st'
    | (Throw e, st') => (Throw e, st')
    end.

(** [try { m } catch (error) { h error }] *)
Definition try_catch {A} (m : M A) (h : exception -> M A) : M A :=
  fun st =>
    match m st with
    | (Return a, st') => (Return a, st')
    | (Throw e, st') => h e st'
    end.

Definition emit (e : event) : M unit :=
  fun st => (Return tt, {| trace := trace st ++ [e]; warnings := warnings st |}).

Definition info (text : string) : M unit := emit (Info text).
Definition dump (what : string) : M unit := emit (Dump what).

(** [exports.showWarning]: counts, then prints. *)
Definition showWarning (text : string) : M unit :=
  fun st => (Return tt, {| trace := trace st ++ [Warning text];
                           warnings := S (warnings st) |}).

(** [await] of an API call: notes the request, throws a rejection. *)
Definition await {D} (endpoint : string) (r : reply D) : M (response D) :=
  bind (emit (Request endpoint)) (fun _ =>
    match r with
    | Resolved res => ret res
    | Rejected e => throw e
    end).

Declare Scope js_scope.
Delimit Scope js_scope with js.
Notation "x <- m ;; k" := (bind m (fun x => k))
  (at level 100, m at next level, right associativity) : js_scope.
Notation "m ;;; k" := (bind m (fun _ => k))
  (at level 100, right associativity) : js_scope.
Local Open Scope js_scope.

(** *** Command-line helper *)

Record settings := {
  param : option (list string);
  title : option string;
  error : option string;
  chdir : option string
}.

Definition checkExec (w : world) (command : string) (s : settings) : M Z :=
  fun st =>
    let args := default [] (param s) in
    let outcome := exec w (trace st) command args (chdir s) in
    let st' := {| trace := trace st ++ [Run command args (chdir s) outcome];
                  warnings := warnings st |} in
    match outcome with
    | Throw e => (Throw e, st')
    | Return result =>
        match error s with
        | Some msg =>
            if negb (result =? 0)
            then (Throw (Error (msg +:+ " (" +:+ string_of_Z result +:+ ").")), st')
            else (Return result, st')
        | None => (Return result, st')
        end
    end.

(** *** Forge helpers *)

Record verified := { v_release : release; v_workflow : workflow_run }.

Definition same_text (a : option string) (b : string) : bool :=
  match a with
  | Some a' => String.eqb a' b
  | None => false
  end.

(** [r => r.event === "release" && r.name === "Run Project Tests"] *)
Definition is_release_test_run (r : workflow_run) : bool :=
  String.eqb (run_event r) "release" && String.eqb (run_name r) "Run Project Tests".

(** [r => r.head_branch === release] *)
Definition on_branch (release : string) (r : workflow_run) : bool :=
  same_text (run_head_branch r) release.

(** [found.status != "completed" || found.conclusion != "success"] *)
Definition not_successful (r : workflow_run) : bool :=
  negb (String.eqb (run_status r) "completed") || negb (same_text (run_conclusion r) "success").

Definition verifyRelease (w : world) (ctx : context) (release : string) : M verified :=
  rel <- try_catch
    (result <- await "repos.getReleaseByTag" (repos_getReleaseByTag w ctx release);;
     if negb (status result =? 200)
     then dump "result";;; throw (Error (string_of_Z (status result) +:+ " exit code"))
     else ret (data result))
    (fun error =>
       throw (Error ("Unable to fetch release " +:+ release +:+ " (" +:+
                     toLowerCase (message error) +:+ ").")));;
  run <- try_catch
    (result <- await "actions.listWorkflowRuns" (actions_listWorkflowRuns w ctx);;
     if negb (status result =? 200)
     then dump "result";;; throw (Error (string_of_Z (status result) +:+ " exit code"))
     else
       let filtered := List.filter is_release_test_run (data result) in
       let branches := map (fun r => default EmptyString (run_head_branch r)) filtered in
       info ("Found Runs: " +:+ String.concat ", " branches);;;
       match List.find (on_branch release) (data result) with
       | None => throw (Error "workflow run not found")
       | Some found =>
           if not_successful found
           then dump "found";;;
                throw (Error ("run #" +:+ string_of_Z (run_number found) +:+ " id " +:+
                              string_of_Z (run_id found) +:+ " not successful"))
           else ret found
       end)
    (fun error =>
       throw (Error ("Unable to verify release " +:+ release +:+ " (" +:+
                     toLowerCase (message error) +:+ ").")));;
  ret {| v_release := rel; v_workflow := run |}.

(** [getIssues]; [project] is the text [`${project}`] and [type] the label
    family (functionality, design, synchronous, asynchronous). *)
Definition getIssues (w : world) (ctx : context) (project type : string) : M (list issue) :=
  result <- await "issues.listForRepo"
              (issues_listForRepo w ctx ("project" +:+ project +:+ "," +:+ toLowerCase type));;
  if negb (status result =? 200)
  then dump "result";;;
       throw (Error ("Unable to list issues from: " +:+ ctx_repo ctx))
  else ret (data result).

(** The built-in functions every plain object inherits from
    [Object.prototype], by the names they are found under; [constructor]
    is the function [Object]. In a template the engine prints a built-in
    function by its name, [function toString() { [native code] }]. *)
Definition inherited_functions : list (string * string) :=
  [("constructor", "Object");
   ("__defineGetter__", "__defineGetter__");
   ("__defineSetter__", "__defineSetter__");
   ("hasOwnProperty", "hasOwnProperty");
   ("__lookupGetter__", "__lookupGetter__");
   ("__lookupSetter__", "__lookupSetter__");
   ("isPrototypeOf", "isPrototypeOf");
   ("propertyIsEnumerable", "propertyIsEnumerable");
   ("toString", "toString");
   ("valueOf", "valueOf");
   ("toLocaleString", "toLocaleString")].

Definition native_function (name : string) : string :=
  "function " +:+ name +:+ "() { [native code] }".

(** [`${names[project]}`] for the object literal [names] of [getMilestone].
    The literal has the four properties 1 to 4 of its own. Any other name
    is looked up in [Object.prototype]: one of its functions prints as
    above, [__proto__] reads the prototype itself, which prints as
    [[object Object]], and a name found nowhere gives undefined. *)
Definition projectName (project : string) : string :=
  if String.eqb project "1" then "Inverted Index"
  else if String.eqb project "2" then "Partial Search"
  else if String.eqb project "3" then "Multithreading"
  else if String.eqb project "4" then "Search Engine"
  else
    match List.find (fun member => String.eqb project member.1) inherited_functions with
    | Some member => native_function member.2
    | None =>
        if String.eqb project "__proto__" then "[object Object]" else "undefined"
    end.

(** [getMilestone]. On a listing status other than 200 the source evaluates
    [SON.stringify(milestones)]; no binding [SON] exists, so that
    expression throws a ReferenceError before anything is printed and
    before the [throw new Error(...)] of the next line is reached. *)
Definition getMilestone (w : world) (ctx : context) (project : string) : M milestone :=
  milestones <- await "issues.listMilestones" (issues_listMilestones w ctx);;
  if negb (status milestones =? 200)
  then throw (ReferenceError "SON is not defined")
  else
    let title := "Project " +:+ project in
    match List.find (fun x => String.eqb (ms_title x) title) (data milestones) with
    | None =>
        create <- await "issues.createMilestone"
                    (issues_createMilestone w ctx title
                       ("Project " +:+ project +:+ " " +:+ projectName project));;
        if negb (status create =? 201)
        then dump "create";;;
             throw (Error ("Unable to create " +:+ title +:+ " milestone in: " +:+ ctx_repo ctx))
        else ret (data create)
    | Some found => ret found
    end.

(** ['labels' in x && x.labels.some(y => y.name == `project${project}`)] *)
Definition has_project_label (project : string) (x : pull) : bool :=
  match pull_labels x with
  | Some labels => existsb (fun y => String.eqb (label_name y) ("project" +:+ project)) labels
  | None => false
  end.

Definition getPullRequests (w : world) (ctx : context) (project : string) : M (list pull) :=
  result <- await "pulls.list" (pulls_list w ctx);;
  if status result =? 404
  then showWarning ("Pull requests not found for: " +:+ ctx_repo ctx);;; ret []
  else if negb (status result =? 200)
  then dump "result";;;
       throw (Error ("Unable to list pull requests in: " +:+ ctx_repo ctx))
  else ret (List.filter (has_project_label project) (data result)).

(** *** State saved between the phases of the action

    [core.saveState] and [core.getState] belong to the host: a store from
    names to texts, where a name that was never saved reads as the empty
    text. A states object is a plain object whose values are texts: a
    [gmap] holds the properties of its own, and what it inherits is
    [Object.prototype]. The order in which the engine enumerates its keys
    does not matter to what is restored, so [Object_keys] takes the order
    of [map_to_list]. *)

Definition saveState (name value : string) (saved : gmap string string)
  : gmap string string := <[name := value]> saved.

Definition getState (name : string) (saved : gmap string string) : string :=
  default EmptyString (saved !! name).

Definition Object_keys (o : gmap string string) : list string := (map_to_list o).*1.

(** The loop [for (const state in states) core.saveState(state, states[state])]
    over a given enumeration of the keys. *)
Definition save_each (keys : list string) (states saved : gmap string string)
  : gmap string string :=
  foldl (fun acc state => saveState state (default EmptyString (states !! state)) acc)
        saved keys.

Definition saveStates (states saved : gmap string string) : gmap string string :=
  saveState "keys" (JSON.stringify (Object_keys states))
            (save_each (Object_keys states) states saved).

(** The assignment [states[key] = value] of a text to a plain object.
    Every name becomes, or stays, a property of the object itself, except
    [__proto__]: unless the object already has a property of its own by
    that name, the assignment reaches the accessor of [Object.prototype],
    whose setter ignores a text, and the object is left as it was. *)
Definition assign (key value : string) (states : gmap string string)
  : gmap string string :=
  if String.eqb key "__proto__" && negb (bool_decide (is_Some (states !! key)))
  then states
  else <[key := value]> states.

(** The loop [for (const key of keys) states[key] = core.getState(key)]. *)
Definition restore_each (keys : list string) (saved states : gmap string string)
  : gmap string string :=
  foldl (fun acc key => assign key (getState key saved) acc) states keys.

Definition restoreStates (saved states : gmap string string)
  : completion (gmap string string) :=
  match getState "keys" saved with
  | EmptyString => Return states
  | text =>
      match JSON.parse text with
      | Some keys => Return (restore_each keys saved states)
      | None => Throw (SyntaxError "Unexpected token in JSON")
      end
  end.

(** [`${states.key}`]: a missing property renders as undefined. *)
Definition field (states : gmap string string) (key : string) : string :=
  default "undefined" (states !! key).

(** [exports.checkWarnings]: the text handed to [core.warning] at the end of
    a phase, [None] when nothing is printed; [count] is [exports.warnings]. *)
Definition checkWarnings (count : nat) (phase : string) : option string :=
  if (1 <? count)%nat
  then Some ("There were " +:+ string_of_Z (Z.of_nat count) +:+ " warnings in the " +:+
             phase +:+ " phase. View the run log for details.")
  else if (count =? 1)%nat
  then Some ("There was " +:+ string_of_Z (Z.of_nat count) +:+ " warning in the " +:+
             phase +:+ " phase. View the run log for details.")
  else None.

End Utils.

Import Utils.

(** ** The setup script *)

Module Setup.

Local Open Scope js_scope.

(** [x => x.state == 'closed' && x.locked == true
         && x.active_lock_reason == 'resolved'] *)
Definition approved (x : issue) : bool :=
  String.eqb (issue_state x) "closed" && issue_locked x
  && same_text (issue_active_lock_reason x) "resolved".

(** [x => x.state == 'open' && 'pull_request' in x
         && 'html_url' in x.pull_request] *)
Definition open_pull (x : issue) : bool :=
  String.eqb (issue_state x) "open" &&
  match issue_pull_request x with
  | Some r => bool_decide (is_Some (ref_html_url r))
  | None => false
  end.

Record approval := { issueNumber : Z; issueUrl : string }.

Definition checkIssues (w : world) (ctx : context) (project : string) : M approval :=
  funIssues <- getIssues w ctx project "functionality";;
  match List.find approved funIssues with
  | None =>
      throw (Error ("Unable to detect approved functionality issue for project " +:+
                    project +:+
                    ". You must pass functionality before requesting code review."))
  | Some funPassed =>
      desIssues <- getIssues w ctx project "design";;
      match List.find approved desIssues with
      | Some desPassed =>
          throw (Error ("Detected approved design issue #" +:+
                        string_of_Z (issue_number desPassed) +:+ " for project " +:+
                        project +:+ ". Additional code reviews are not necessary."))
      | None =>
          syncPulls <- getIssues w ctx project "synchronous";;
          asyncPulls <- getIssues w ctx project "asynchronous";;
          let pulls := syncPulls ++ asyncPulls in
          match List.find open_pull pulls with
          | Some openPull =>
              dump "openPull";;;
              throw (Error ("Detected open pull request #" +:+
                            string_of_Z (issue_number openPull) +:+ " for project " +:+
                            project +:+
                            ". Please merge or close old pull requests before requesting code review."))
          | None =>
              ret {| issueNumber := issue_number funPassed;
                     issueUrl := issue_html_url funPassed |}
          end
      end
  end.

Definition cloneProject (w : world) (token : string) (ctx : context) (release : string)
  : M unit :=
  checkExec w "git" {|
    param := Some ["clone"; "--depth"; "1"; "--no-tags";
                   "https://github-actions:" +:+ token +:+ "@github.com/" +:+
                     ctx_owner ctx +:+ "/" +:+ ctx_repo ctx;
                   mainDir];
    title := Some ("Cloning " +:+ ctx_repo ctx +:+ " into " +:+ mainDir);
    error := Some ("Failed cloning " +:+ ctx_repo ctx +:+ " repository");
    chdir := None |};;;
  checkExec w "ls" {|
    param := Some ["-m"; mainDir +:+ "/src/main/java"];
    title := Some "Listing project main code";
    error := Some "Unable to list test directory";
    chdir := None |};;;
  ret tt.

Definition diverged (release : string) : string :=
  "The main branch has one or more commits since release " +:+ release +:+
  " was created. There must be no changes since the last verified release for code review.".

Definition prepareBranch (w : world) (token : string) (ctx : context) (release : string)
  : M string :=
  checkExec w "git" {|
    param := Some ["fetch"; "--unshallow"; "--tags"];
    title := Some "Fetching commit history and tags";
    error := Some "Unable to fetch history and tags";
    chdir := Some mainDir |};;;
  checkExec w "git" {|
    param := Some ["diff"; "--shortstat"; "origin/main"; release];
    title := Some "Checking main branch and release are even";
    error := Some "Unable compare main branch and release";
    chdir := Some mainDir |};;;
  changed <- checkExec w "git" {|
    param := Some ["diff"; "--exit-code"; "--quiet"; "origin/main"; release];
    title := None;
    error := None;
    chdir := Some mainDir |};;
  if negb (changed =? 0) then throw (Error (diverged release))
  else
    checkExec w "git" {|
      param := Some ["config"; "user.name"; "github-actions"];
      title := Some "Configuring github action user";
      error := Some "Unable to configure github action user";
      chdir := Some mainDir |};;;
    checkExec w "git" {|
      param := Some ["config"; "user.email"; "github-actions@github.com"];
      title := Some "Configuring github action email";
      error := Some "Unable to configure github action email";
      chdir := Some mainDir |};;;
    checkExec w "git" {|
      param := Some ["checkout"; "-b"; "review/" +:+ release];
      title := Some "Creating review branch";
      error := Some "Unable to create review branch";
      chdir := Some mainDir |};;;
    ret ("review/" +:+ release).

(** [`${project}`] for the project number: JavaScript prints an integer
    below 10^21 in plain decimal, and the project number is 1 to 4. *)
Definition string_of_number (x : number) : string :=
  match x with
  | Finite n => NilZero.string_of_uint (N.to_uint n)
  | Infinity => "Infinity"
  end.

(** The [states] object of [run] once the branch exists: the parsed details
    ([Object.assign(states, parsed)]), the release and run fields, the
    approval ([Object.assign(states, issues)]) and the branch. *)
Record setup_states := {
  st_parsed : details;
  st_releaseUrl : string;
  st_releaseTag : string;
  st_releaseDate : string;
  st_runNumber : Z;
  st_runId : Z;
  st_runUrl : string;
  st_issues : approval;
  st_branch : string
}.

Section Run.
Variable w : world.
Variable ctx : context.
(** The inputs [token], [type] and [release] of the action. *)
Variables token type_input release : string.
(** The end of the try block, [utils.cacheMaven] and [utils.saveStates];
    the cache helper is not part of the sources at hand. *)
Variable finish : setup_states -> M unit.

(** The try block of [run] up to the review branch. *)
Definition prepare : M setup_states :=
  parsed <- (fun st => (parseProject ctx type_input release, st));;
  verified <- verifyRelease w ctx (version parsed);;
  issues <- checkIssues w ctx (string_of_number (project parsed));;
  cloneProject w token ctx (version parsed);;;
  branch <- prepareBranch w token ctx (version parsed);;
  ret {| st_parsed := parsed;
         st_releaseUrl := rel_html_url (v_release verified);
         st_releaseTag := rel_tag_name (v_release verified);
         st_releaseDate := rel_created_at (v_release verified);
         st_runNumber := run_number (v_workflow verified);
         st_runId := run_id (v_workflow verified);
         st_runUrl := run_html_url (v_workflow verified);
         st_issues := issues;
         st_branch := branch |}.

Definition body : M unit := states <- prepare;; finish states.

(** [run]: a thrown error is shown and fails the action; the [finally]
    block only prints. *)
Definition run : M unit :=
  try_catch body (fun error => emit (SetFailed ("Setup failed. " +:+ message error))).
End Run.

End Setup.
Import Setup.

(** ** The request script *)

Module Request.

Local Open Scope js_scope.

(** *** Array.prototype.sort

    The sort belongs to the engine. ECMAScript fixes its result only for a
    consistent comparator, which [sorter] below is not, so the model follows
    what V8 (the engine of the Node runtime of the action) does on an array
    of fewer than 64 elements: find the run at the head of the array,
    reverse it when it descends, then insert every later element by binary
    search. *)
Section Sort.
Context {A : Type} (cmp : A -> A -> Z).

(** How many elements after [previous] continue the run. *)
Fixpoint run_tail (descending : bool) (previous : A) (l : list A) : nat :=
  match l with
  | [] => O
  | current :: l' =>
      let order := cmp current previous in
      if descending
      then (if order <? 0 then S (run_tail descending current l') else O)
      else (if order <? 0 then O else S (run_tail descending current l'))
  end.

Definition CountAndMakeRun (l : list A) : nat * list A :=
  match l with
  | high :: low :: rest =>
      let order := cmp low high in
      let descending := order <? 0 in
      let n := (2 + run_tail descending low rest)%nat in
      if descending then (n, rev (take n l) ++ drop n l) else (n, l)
  | _ => (length l, l)
  end.

(** The loop [while (left < right)] of the binary insertion; it halves
    [right - left], so [right - left] rounds are always enough. *)
Fixpoint search (fuel : nat) (pivot : A) (l : list A) (left right : nat) : nat :=
  match fuel with
  | O => left
  | S fuel' =>
      if (left <? right)%nat then
        let mid := (left + (right - left) / 2)%nat in
        match l !! mid with
        | Some x =>
            if cmp pivot x <? 0 then search fuel' pivot l left mid
            else search fuel' pivot l (S mid) right
        | None => left
        end
      else left
  end.

Fixpoint insert_all (sorted pending : list A) : list A :=
  match pending with
  | [] => sorted
  | pivot :: rest =>
      let left := search (length sorted) pivot sorted 0 (length sorted) in
      insert_all (take left sorted ++ pivot :: drop left sorted) rest
  end.

Definition sort (l : list A) : list A :=
  if (length l <? 2)%nat then l
  else let '(n, l') := CountAndMakeRun l in insert_all (take n l') (drop n l').
End Sort.

(** *** The comparator of the label column *)

Definition sorter (x y : label) : Z :=
  if startsWith (label_name x) "project" then -1
  else if startsWith (label_name y) "project" then 1
  else if startsWith (label_name x) "v" then -1
  else if startsWith (label_name y) "v" then 1
  else if String.ltb (label_name x) (label_name y) then -1
  else if String.ltb (label_name y) (label_name x) then -1
  else 0.

(** [pull.labels ? pull.labels.sort(sorter).map(x => x.name).join(', ') : 'N/A'] *)
Definition labels_cell (p : pull) : string :=
  match pull_labels p with
  | Some labels => String.concat ", " (map label_name (sort sorter labels))
  | None => "N/A"
  end.

(** *** The sequence *)

Definition todoParam : list string :=
  ["-rnoiE"; "^\s*[/*]{1,2}.*\bTODO\b"; "."].

Definition mainParam : list string :=
  ["-rnoiE"; "--exclude=Driver.java"; "\s*public\s+static\s+void\s+main\s*\("; "."].

Definition sourceDir : string := mainDir +:+ "/src/main/java".

Definition todoFound : string :=
  "One or more TODO comments found. Please clean up the code before requesting code review.".

Definition mainFound : string :=
  "More than one main method found. Please clean up old main methods before requesting code review.".

Definition commitParam (states : gmap string string) : list string :=
  ["commit"; "--allow-empty"; "-m";
   dq +:+ "Creating " +:+ field states "branch" +:+ " branch" +:+ dq].

Section Run.
Variable w : world.
Variable ctx : context.
(** What the setup phase left in the host's store. *)
Variable saved : gmap string string.
(** The rest of the try block, from the table of earlier pull requests
    to the final notice; it formats dates with an external library and
    is taken as given. *)
Variable openPullRequest : gmap string string -> milestone -> list pull -> M unit.

Definition lift {A} (c : completion A) : M A := fun st => (c, st).

Definition displayEnvironment : M unit :=
  checkExec w "java" {|
    param := Some ["--version"];
    title := Some "Displaying Java runtime version";
    error := Some "Unable to display Java runtime version";
    chdir := None |};;;
  checkExec w "javac" {|
    param := Some ["--version"];
    title := Some "Displaying Java compiler version";
    error := Some "Unable to display Java compiler version";
    chdir := None |};;;
  checkExec w "mvn" {|
    param := Some ["--version"];
    title := Some "Displaying Maven version";
    error := Some "Unable to display Maven version";
    chdir := None |};;;
  ret tt.

Definition checkCompile : M unit :=
  checkExec w "mvn" {|
    param := Some ["-ntp";
                   dq +:+ "-DcompileOptionXlint=-Xlint:all" +:+ dq;
                   dq +:+ "-DcompileOptionXdoclint=-Xdoclint:all/private" +:+ dq;
                   "-DcompileOptionFail=true"; "-Dmaven.compiler.failOnWarning=true";
                   "-Dmaven.compiler.showWarnings=true"; "clean"; "compile"];
    title := Some "Compiling project code";
    error := Some "Unable to compiling code without warnings. Please address all warnings before requesting code review";
    chdir := Some (mainDir +:+ "/") |};;;
  checkExec w "ls" {|
    param := Some ["-m"; mainDir +:+ "/target/classes"];
    title := Some "Listing main class files";
    error := Some "Unable to list main class directory";
    chdir := None |};;;
  ret tt.

Definition checkCleanup : M unit :=
  todoGrep <- checkExec w "grep" {|
    param := Some todoParam;
    title := Some "Checking for 1 line TODO comments";
    error := None;
    chdir := Some sourceDir |};;
  if negb (todoGrep =? 1) then throw (Error todoFound)
  else
    mainGrep <- checkExec w "grep" {|
      param := Some mainParam;
      title := Some "Checking for extra main methods";
      error := None;
      chdir := Some sourceDir |};;
    if negb (mainGrep =? 1) then throw (Error mainFound)
    else ret tt.

Definition createBranch (states : gmap string string) : M unit :=
  checkExec w "git" {|
    param := Some (commitParam states);
    title := Some "Creating branch commit";
    error := Some ("Unable to commit " +:+ field states "branch" +:+ " branch");
    chdir := Some (mainDir +:+ "/") |};;;
  checkExec w "git" {|
    param := Some ["push"; "-u"; "origin"; field states "branch"];
    title := Some "Pushing branch to remote";
    error := Some ("Unable to push " +:+ field states "branch" +:+
                   " branch. Please make sure this branch does not already exist");
    chdir := Some (mainDir +:+ "/") |};;;
  ret tt.

(** The try block of [run]; the groups of the source are named after
    their log titles. *)
Definition body : M unit :=
  states <- lift (restoreStates saved ∅);;
  displayEnvironment;;;
  checkCompile;;;
  checkCleanup;;;
  createBranch states;;;
  milestone <- getMilestone w ctx (field states "project");;
  pulls <- getPullRequests w ctx (field states "project");;
  openPullRequest states milestone pulls.

(** [run]: a thrown error is caught, shown and turned into the failure
    of the action. The [finally] block only prints and is left out. *)
Definition run : M unit :=
  try_catch body
    (fun error => emit (SetFailed ("Code review request failed. " +:+ message error))).
End Run.

(** *** Opening the pull request

    The rest of the try block. Dates are rendered by an external library
    ([localTime] stands for
    [DateTime.fromISO(s).setZone(zone).toLocaleString(DateTime.DATETIME_FULL)])
    and the description is a Markdown template over the states, the table
    of earlier pull requests and the release date ([describe]); both are
    taken as given, like the requests that the helper library does not
    wrap. *)

Record review := { review_state : string; review_login : string }.

Record created := { created_number : Z; created_html_url : string }.

Record create_data := {
  cd_title : string;
  cd_head : option string;
  cd_base : string;
  cd_body : string;
  cd_draft : bool;
  cd_maintainer_can_modify : bool
}.

Record update_data := {
  ud_issue_number : Z;
  ud_milestone : Z;
  ud_labels : list (option string);
  ud_assignees : list string
}.

Record reviewers_data := { rd_pull_number : Z; rd_reviewers : list string }.

Record comment_data := { cm_issue_number : Z; cm_body : string }.

Record desk := {
  actor : string;
  localTime : string -> completion string;
  describe : gmap string string -> string -> completion string;
  pulls_listReviews : context -> Z -> reply (list review);
  pulls_create : context -> create_data -> reply created;
  issues_update : context -> update_data -> reply unit;
  pulls_requestReviewers : context -> reviewers_data -> reply unit;
  issues_createComment : context -> comment_data -> reply unit
}.

Definition nl : string := String "010"%char EmptyString.

(** The comment with the instructions for the student. *)
Definition instructions (actor releaseTag type : string) : string :=
  nl +:+ "## Student Instructions" +:+ nl +:+ nl +:+ "Hello @" +:+ actor +:+
  "! Please follow these instructions to request your project " +:+ releaseTag +:+ " " +:+
  toLowerCase type +:+ " code review:" +:+ nl +:+ nl +:+
  "- [ ] Replace `[FULL_NAME]` with your full name and `[USF_EMAIL]` with your USF username so we can enter your grade on Canvas." +:+
  nl +:+ nl +:+
  "- [ ] Double-check the [labels, assignee, and milestone](https://guides.github.com/features/issues/) are set properly." +:+
  nl +:+ nl +:+
  "- [ ] Double-check you are making the correct type of request. You can only request an asynchronous code review if you were pre-approved by the instructor!" +:+
  nl +:+ nl +:+ "- [ ] **Mark this request as " +:+ dq +:+ "Ready to Review" +:+ dq +:+
  " when all of the above is complete.**" +:+ nl +:+ nl +:+
  "Click each of the above tasks as you complete them!" +:+ nl +:+ nl +:+
  "We will reply with further instructions. If we do not respond within 2 *business* days, please reach out on CampusWire." +:+
  nl +:+ nl +:+
  ":warning: **We will not see this request while it is in draft mode. You must mark it as ready to review first!**" +:+
  nl +:+ "    ".

Section Compose.
Variable d : desk.
Variable ctx : context.

(** [at ? DateTime.fromISO(at)... : 'N/A'] *)
Definition cell_date (at_ : option string) : M string :=
  match at_ with
  | Some (String c s) => lift (localTime d (String c s))
  | _ => ret "N/A"
  end.

(** One pass of the loop over the earlier pull requests: the row of
    [pull]. The reviews are used as they are listed, whatever the status
    of the answer. *)
Definition review_row (pull : pull) : M string :=
  let status := if pull_draft pull then "draft" else pull_state pull in
  let labels := labels_cell pull in
  createdDate <- cell_date (pull_created_at pull);;
  closedDate <- cell_date (pull_closed_at pull);;
  reviews <- await "pulls.listReviews" (pulls_listReviews d ctx (pull_number pull));;
  let approved :=
    List.filter (fun x => String.eqb (review_state x) "APPROVED") (data reviews) in
  let approvals := String.concat ", " (map review_login approved) in
  ret ("| [#" +:+ string_of_Z (pull_number pull) +:+ "](" +:+ pull_html_url pull +:+
       ") | " +:+ status +:+ " | " +:+ labels +:+ " | " +:+ approvals +:+ " | " +:+
       createdDate +:+ " | " +:+ closedDate +:+ " |").

Fixpoint review_rows (pulls : list pull) (rows : list string) : M (list string) :=
  match pulls with
  | [] => ret rows
  | pull :: pulls' => row <- review_row pull;; review_rows pulls' (rows ++ [row])
  end.

(** [reviewList] *)
Definition reviewList (pulls : list pull) : M string :=
  match pulls with
  | [] => ret "N/A"
  | _ =>
      rows <- review_rows pulls
                ["| Pull | Status | Labels | Approvals | Created | Closed |";
                 "|:----:|:------:|:-------|:----------|:--------|:-------|"];;
      ret (String.concat nl rows)
  end.

Definition createPullRequest (states : gmap string string) (milestone : milestone)
    (pulls : list pull) : M unit :=
  table <- reviewList pulls;;
  body <- lift (describe d states table);;
  let request := {|
    cd_title := "Project " +:+ field states "releaseTag" +:+ " " +:+ field states "type" +:+
                " Code Review";
    cd_head := states !! "branch";
    cd_base := "main";
    cd_body := body;
    cd_draft := true;
    cd_maintainer_can_modify := true |} in
  pullRequest <- await "pulls.create" (pulls_create d ctx request);;
  if negb (status pullRequest =? 201)
  then dump "data";;; dump "pullRequest";;;
       throw (Error ("Unable to create pull request for: " +:+ ctx_repo ctx))
  else
    match states !! "type" with
    | None => throw (TypeError "Cannot read properties of undefined (reading 'toLowerCase')")
    | Some type =>
        let update := {|
          ud_issue_number := created_number (data pullRequest);
          ud_milestone := ms_number milestone;
          ud_labels := [Some ("project" +:+ field states "project");
                        Some (toLowerCase type);
                        states !! "releaseTag"];
          ud_assignees := [actor d] |} in
        updateRequest <- await "issues.update" (issues_update d ctx update);;
        if negb (status updateRequest =? 200)
        then dump "update";;; dump "updateRequest";;;
             throw (Error ("Unable to update labels for pull request at: " +:+
                           created_html_url (data pullRequest)))
        else
          let reviewers := {|
            rd_pull_number := created_number (data pullRequest);
            rd_reviewers := ["mtquach2"; "ybsolomon"] |} in
          reviewRequest <- await "pulls.requestReviewers"
                             (pulls_requestReviewers d ctx reviewers);;
          if negb (status reviewRequest =? 201)
          then dump "reviewers";;; dump "reviewRequest";;;
               throw (Error ("Unable to request reviewers for pull request at: " +:+
                             created_html_url (data pullRequest)))
          else
            let comment := instructions (actor d) (field states "releaseTag") type in
            commentRequest <- await "issues.createComment"
                                (issues_createComment d ctx
                                   {| cm_issue_number := created_number (data pullRequest);
                                      cm_body := comment |});;
            if negb (status commentRequest =? 201)
            then dump "commentRequest";;;
                 throw (Error ("Unable to add comment for pull request at: " +:+
                               created_html_url (data pullRequest)))
            else
              info (field states "type" +:+ " code review request #" +:+
                    string_of_Z (created_number (data pullRequest)) +:+ " for project " +:+
                    field states "project" +:+ " release " +:+ field states "releaseTag" +:+
                    " created. Visit the pull request for further instructions at: " +:+
                    created_html_url (data pullRequest))
    end.
End Compose.

End Request.
Import Request.

(** ** Notions of the specification *)

Module Spec.

Fixpoint all_digits (s : string) : bool :=
  match s with
  | EmptyString => true
  | String c s' => is_digit c && all_digits s'
  end.

(** [\d+]: one decimal digit or more. *)
Definition digits (s : string) : Prop := s <> EmptyString /\ all_digits s = true.

(** The whole string has the form [v<1-4>.<int>.<int>]. *)
Definition version_form (v : string) : Prop :=
  exists p r q,
    v = String "v" (String p ("." +:+ r +:+ "." +:+ q)) /\
    is_project_digit p = true /\ digits r /\ digits q.

Fixpoint no_slash (s : string) : bool :=
  match s with
  | EmptyString => true
  | String c s' => negb (Ascii.eqb c "/") && no_slash s'
  end.

(** [v] is what follows the last slash of [ref], or all of [ref] when it
    has no slash. *)
Definition last_segment (ref v : string) : Prop :=
  no_slash v = true /\ (ref = v \/ exists pre, ref = pre +:+ "/" +:+ v).

(** The events that running [m] from [st] appends to the trace. *)
Definition events_of {A} (m : M A) (st : state) : list event :=
  drop (length (trace st)) (trace (m st).2).

(** The quiet comparison of the main branch with the release, answering
    [code], and the creation of the review branch. *)
Definition diffRun (release : string) (code : Z) : event :=
  Run "git" ["diff"; "--exit-code"; "--quiet"; "origin/main"; release] (Some mainDir)
      (Return code).

Definition checkoutRun (release : string) (result : completion Z) : event :=
  Run "git" ["checkout"; "-b"; "review/" +:+ release] (Some mainDir) result.

(** The request sequence before its two scans (it yields the restored
    states), the two scan commands with their answers, and the sequence from
    the branch commit on. *)
Definition upToScans (w : world) (saved : gmap string string) : M (gmap string string) :=
  (states <- lift (restoreStates saved ∅);;
   displayEnvironment w;;;
   checkCompile w;;;
   ret states)%js.

Definition todoRun (code : Z) : event :=
  Run "grep" todoParam (Some sourceDir) (Return code).

Definition mainRun (code : Z) : event :=
  Run "grep" mainParam (Some sourceDir) (Return code).

Definition fromCommit (w : world) (ctx : context)
    (rest : gmap string string -> milestone -> list pull -> M unit)
    (states : gmap string string) : M unit :=
  (createBranch w states;;;
   milestone <- getMilestone w ctx (field states "project");;
   pulls <- getPullRequests w ctx (field states "project");;
   rest states milestone pulls)%js.

(** [st] with one more event. *)
Definition after (st : state) (e : event) : state :=
  {| trace := trace st ++ [e]; warnings := warnings st |}.

(** The two families of labels that the comparator puts first. *)
Definition is_project (x : label) : bool := startsWith (label_name x) "project".
Definition is_tag (x : label) : bool := startsWith (label_name x) "v".

(** An event that is a subprocess. *)
Definition is_run (e : event) : bool :=
  match e with
  | Run _ _ _ _ => true
  | _ => false
  end.

(** An event that is a request to the forge. *)
Definition is_request (e : event) : bool :=
  match e with
  | Request _ => true
  | _ => false
  end.

(** A subprocess that ran in [dir] and exited with [code]. *)
Definition ran (command : string) (args : list string) (dir : option string) (code : Z)
  : event := Run command args dir (Return code).

(** The request sequence up to the point where it first turns to the
    forge. *)
Definition untilForge (w : world) (saved : gmap string string) : M (gmap string string) :=
  (states <- upToScans w saved;;
   checkCleanup w;;;
   createBranch w states;;;
   ret states)%js.

(** [m] only appends events that satisfy [P] to the trace. *)
Definition appends {A} (P : event -> Prop) (m : M A) : Prop :=
  forall st, exists new, trace (m st).2 = trace st ++ new /\ Forall P new.

(** [m] leaves the warning count as it is. *)
Definition keeps_warnings {A} (m : M A) : Prop :=
  forall st, warnings (m st).2 = warnings st.

End Spec.
Import Spec.

(** ** Concrete repositories and oracles for the examples *)

Module Sample.

Definition student : context := {| ctx_owner := "student"; ctx_repo := "project" |}.

Definition unreachable {D : Type} : reply D := Rejected (Error "Not Found").

(** A forge that answers nothing, around commands whose exit code is
    [answer command param]. *)
Definition offline (answer : string -> list string -> Z) : world := {|
  exec := fun _ command args _ => Return (answer command args);
  repos_getReleaseByTag := fun _ _ => unreachable;
  actions_listWorkflowRuns := fun _ => unreachable;
  issues_listForRepo := fun _ _ => unreachable;
  issues_listMilestones := fun _ => unreachable;
  issues_createMilestone := fun _ _ _ => unreachable;
  pulls_list := fun _ => unreachable |}.

(** Every command succeeds. *)
Definition calm : world := offline (fun _ _ => 0).

(** The main branch has moved on: the quiet diff answers 1. *)
Definition ahead : world :=
  offline (fun _ args => if bool_decide (args !! 1%nat = Some "--exit-code") then 1 else 0).

(** The sources are tidy: both scans answer 1, every other command 0. *)
Definition tidy : world :=
  offline (fun command _ => if String.eqb command "grep" then 1 else 0).

(** Where the request sequence stands in [tidy] when it reaches the scans,
    nothing having been saved by the setup. *)
Definition tidy_reached : state := (upToScans tidy ∅ initial).2.

Definition no_rest : gmap string string -> milestone -> list pull -> M unit :=
  fun _ _ _ => ret tt.

(** A release whose test run failed, while the push of the tag started
    another workflow that succeeded; runs are listed newest first. *)
Definition release_v100 : release := {|
  rel_html_url := "https://github.com/student/project/releases/tag/v1.0.0";
  rel_tag_name := "v1.0.0";
  rel_created_at := "2021-10-01T17:00:00Z" |}.

Definition push_run : workflow_run := {|
  run_event := "push";
  run_name := "Publish Site";
  run_head_branch := Some "v1.0.0";
  run_status := "completed";
  run_conclusion := Some "success";
  run_number := 12;
  run_id := 1302;
  run_html_url := "https://github.com/student/project/actions/runs/1302" |}.

Definition test_run : workflow_run := {|
  run_event := "release";
  run_name := "Run Project Tests";
  run_head_branch := Some "v1.0.0";
  run_status := "completed";
  run_conclusion := Some "failure";
  run_number := 31;
  run_id := 1301;
  run_html_url := "https://github.com/student/project/actions/runs/1301" |}.

Definition failed_tests : world := {|
  exec := fun _ _ _ _ => Return 0;
  repos_getReleaseByTag := fun _ _ => Resolved {| status := 200; data := release_v100 |};
  actions_listWorkflowRuns :=
    fun _ => Resolved {| status := 200; data := [push_run; test_run] |};
  issues_listForRepo := fun _ _ => unreachable;
  issues_listMilestones := fun _ => unreachable;
  issues_createMilestone := fun _ _ _ => unreachable;
  pulls_list := fun _ => unreachable |}.

(** Two functionality issues of project 2 were approved, nothing else is
    on file. *)
Definition approved_issue (n : Z) (url : string) : issue := {|
  issue_number := n;
  issue_html_url := url;
  issue_state := "closed";
  issue_locked := true;
  issue_active_lock_reason := Some "resolved";
  issue_pull_request := None |}.

Definition two_approvals : list issue :=
  [approved_issue 3 "https://github.com/student/project/issues/3";
   approved_issue 5 "https://github.com/student/project/issues/5"].

Definition approved_twice : world := {|
  exec := fun _ _ _ _ => Return 0;
  repos_getReleaseByTag := fun _ _ => unreachable;
  actions_listWorkflowRuns := fun _ => unreachable;
  issues_listForRepo := fun _ labels =>
    Resolved {| status := 200;
                data := if String.eqb labels "project2,functionality"
                        then two_approvals else [] |};
  issues_listMilestones := fun _ => unreachable;
  issues_createMilestone := fun _ _ _ => unreachable;
  pulls_list := fun _ => unreachable |}.

(** The forge answers every request with status 500. *)
Definition outage : world := {|
  exec := fun _ _ _ _ => Return 0;
  repos_getReleaseByTag := fun _ _ => Resolved {| status := 500; data := release_v100 |};
  actions_listWorkflowRuns := fun _ => Resolved {| status := 500; data := [] |};
  issues_listForRepo := fun _ _ => Resolved {| status := 500; data := [] |};
  issues_listMilestones := fun _ => Resolved {| status := 500; data := [] |};
  issues_createMilestone :=
    fun _ title _ => Resolved {| status := 500; data := {| ms_number := 0; ms_title := title |} |};
  pulls_list := fun _ => Resolved {| status := 500; data := [] |} |}.

(** No pull request was ever opened: the listing answers 404. *)
Definition no_pulls : world := {|
  exec := fun _ _ _ _ => Return 0;
  repos_getReleaseByTag := fun _ _ => unreachable;
  actions_listWorkflowRuns := fun _ => unreachable;
  issues_listForRepo := fun _ _ => unreachable;
  issues_listMilestones := fun _ => unreachable;
  issues_createMilestone := fun _ _ _ => unreachable;
  pulls_list := fun _ => Resolved {| status := 404; data := [] |} |}.

Definition labels : list label :=
  [{| label_name := "v1.2.0" |}; {| label_name := "project3" |}; {| label_name := "zzz" |}].

(** An earlier pull request that carries these labels. *)
Definition earlier_pull : pull := {|
  pull_number := 4;
  pull_html_url := "https://github.com/student/project/pull/4";
  pull_state := "closed";
  pull_draft := false;
  pull_labels := Some labels;
  pull_created_at := Some "2021-09-20T18:00:00Z";
  pull_closed_at := Some "2021-09-24T18:00:00Z" |}.

(** A forge where only the milestone and pull request listings answer. *)
Definition listing_forge (milestones : reply (list milestone)) (pulls : reply (list pull))
  : world := {|
  exec := fun _ _ _ _ => Return 0;
  repos_getReleaseByTag := fun _ _ => unreachable;
  actions_listWorkflowRuns := fun _ => unreachable;
  issues_listForRepo := fun _ _ => unreachable;
  issues_listMilestones := fun _ => milestones;
  issues_createMilestone := fun _ _ _ => unreachable;
  pulls_list := fun _ => pulls |}.

Definition project2_milestone : milestone := {| ms_number := 2; ms_title := "Project 2" |}.

(** The functionality issues of project 2 were approved and so was a design
    issue. *)
Definition design_done : world := {|
  exec := fun _ _ _ _ => Return 0;
  repos_getReleaseByTag := fun _ _ => unreachable;
  actions_listWorkflowRuns := fun _ => unreachable;
  issues_listForRepo := fun _ labels =>
    Resolved {| status := 200;
                data := if String.eqb labels "project2,functionality"
                        then two_approvals
                        else if String.eqb labels "project2,design"
                        then [approved_issue 9 "https://github.com/student/project/issues/9"]
                        else [] |};
  issues_listMilestones := fun _ => unreachable;
  issues_createMilestone := fun _ _ _ => unreachable;
  pulls_list := fun _ => unreachable |}.

(** A release whose test run succeeded, with the functionality of project 1
    approved and nothing else on file; every command succeeds. *)
Definition passed_run : workflow_run := {|
  run_event := "release";
  run_name := "Run Project Tests";
  run_head_branch := Some "v1.0.0";
  run_status := "completed";
  run_conclusion := Some "success";
  run_number := 32;
  run_id := 1303;
  run_html_url := "https://github.com/student/project/actions/runs/1303" |}.

Definition ready : world := {|
  exec := fun _ _ _ _ => Return 0;
  repos_getReleaseByTag :=
    fun _ _ => Resolved {| status := 200; data := release_v100 |};
  actions_listWorkflowRuns := fun _ => Resolved {| status := 200; data := [passed_run] |};
  issues_listForRepo := fun _ labels =>
    Resolved {| status := 200;
                data := if String.eqb labels "project1,functionality"
                        then [approved_issue 3
                                "https://github.com/student/project/issues/3"]
                        else [] |};
  issues_listMilestones := fun _ => unreachable;
  issues_createMilestone := fun _ _ _ => unreachable;
  pulls_list := fun _ => unreachable |}.

(** A forge that accepts every step of the pull request; one earlier review
    approved, one only commented. *)
Definition front_desk : desk := {|
  actor := "student";
  localTime := fun s => Return s;
  describe := fun _ table => Return table;
  pulls_listReviews := fun _ _ =>
    Resolved {| status := 200;
                data := [ {| review_state := "APPROVED"; review_login := "professor" |};
                          {| review_state := "COMMENTED"; review_login := "assistant" |} ] |};
  pulls_create := fun _ _ =>
    Resolved {| status := 201;
                data := {| created_number := 7;
                           created_html_url := "https://github.com/student/project/pull/7" |} |};
  issues_update := fun _ _ => Resolved {| status := 200; data := tt |};
  pulls_requestReviewers := fun _ _ => Resolved {| status := 201; data := tt |};
  issues_createComment := fun _ _ => Resolved {| status := 201; data := tt |} |}.

(** What the setup of release v2.3.1 leaves for the request. *)
Definition restored : gmap string string :=
  {[ "type" := "Synchronous"; "project" := "2"; "releaseTag" := "v2.3.1";
     "branch" := "review/v2.3.1" ]}.

End Sample.


(** * Properties *)

(** ** Strings *)

Lemma append_assoc (a b c : string) : (a +:+ b) +:+ c = a +:+ (b +:+ c).
Proof. induction a as [|x a IH]; [reflexivity | exact (f_equal (String x) IH)]. Qed.

Lemma append_nil_r (a : string) : a +:+ EmptyString = a.
Proof. induction a as [|x a IH]; [reflexivity | exact (f_equal (String x) IH)]. Qed.

(** ** The reference parser *)

Lemma span_digits_sound s d rest :
  span_digits s = (d, rest) ->
  s = d +:+ rest /\ all_digits d = true /\
  match rest with String c _ => is_digit c = false | EmptyString => True end.
Proof.
  revert d rest. induction s as [|c s IH]; intros d rest H; simpl in H.
  - inversion H; subst. repeat split.
  - destruct (is_digit c) eqn:Hc.
    + destruct (span_digits s) as [d' rest'] eqn:Hs. inversion H; subst.
      destruct (IH _ _ eq_refl) as (-> & Hd & Hr).
      simpl. rewrite Hc, Hd. repeat split. exact Hr.
    + inversion H; subst. repeat split. exact Hc.
Qed.

Lemma span_digits_app d rest :
  all_digits d = true ->
  match rest with String c _ => is_digit c = false | EmptyString => True end ->
  span_digits (d +:+ rest) = (d, rest).
Proof.
  intros Hd Hr. induction d as [|c d IH]; simpl in *.
  - destruct rest as [|c rest]; [reflexivity | simpl; now rewrite Hr].
  - apply andb_prop in Hd as [Hc Hd]. rewrite Hc, (IH Hd). reflexivity.
Qed.

(** The matcher accepts exactly the strings of the form
    [v<1-4>.<int>.<int>] and captures the three numbers. *)
Lemma match_version_Some v m1 m2 m3 :
  match_version v = Some (m1, m2, m3) <->
  exists p, m1 = String p EmptyString /\
    v = String "v" (String p ("." +:+ m2 +:+ "." +:+ m3)) /\
    is_project_digit p = true /\ digits m2 /\ digits m3.
Proof.
  split.
  - unfold match_version. intros H.
    destruct v as [|c0 [|p [|c1 rest]]]; try discriminate;
      try (destruct c0 as [[] [] [] [] [] [] [] []]; discriminate).
    destruct (Ascii.eqb_spec c0 "v") as [->|Hc0];
      [|destruct c0 as [[] [] [] [] [] [] [] []]; try discriminate; now destruct Hc0].
    destruct (Ascii.eqb_spec c1 ".") as [->|Hc1];
      [|destruct c1 as [[] [] [] [] [] [] [] []]; try discriminate; now destruct Hc1].
    destruct (is_project_digit p) eqn:Hp; [|discriminate].
    destruct (span_digits rest) as [r rest1] eqn:Hr.
    destruct r as [|r0 r]; [discriminate|].
    destruct rest1 as [|c2 rest2]; [discriminate|].
    destruct (Ascii.eqb_spec c2 ".") as [->|Hc2];
      [|destruct c2 as [[] [] [] [] [] [] [] []]; try discriminate; now destruct Hc2].
    destruct (span_digits rest2) as [q rest3] eqn:Hq.
    destruct q as [|q0 q]; [discriminate|].
    destruct rest3; [|discriminate].
    inversion H; subst; clear H.
    apply span_digits_sound in Hr as (-> & Hdr & _).
    apply span_digits_sound in Hq as (-> & Hdq & _).
    exists p. rewrite append_nil_r. repeat split; try assumption; discriminate.
  - intros (p & -> & -> & Hp & [Hr0 Hr] & [Hq0 Hq]).
    change (match_version (String "v" (String p (String "." (m2 +:+ String "." m3))))
            = Some (String p EmptyString, m2, m3)).
    unfold match_version. rewrite Hp.
    rewrite (span_digits_app m2 (String "." m3) Hr) by reflexivity.
    destruct m2 as [|r0 r]; [now destruct Hr0|].
    rewrite <- (append_nil_r m3) at 1.
    rewrite (span_digits_app m3 EmptyString Hq) by exact I.
    destruct m3 as [|q0 q]; [now destruct Hq0|]. reflexivity.
Qed.

Lemma match_version_form v :
  version_form v <-> exists m, match_version v = Some m.
Proof.
  split.
  - intros (p & r & q & -> & Hp & Hr & Hq).
    exists (String p EmptyString, r, q). apply match_version_Some. now exists p.
  - intros ([[m1 m2] m3] & H). apply match_version_Some in H as (p & _ & -> & Hp & Hr & Hq).
    now exists p, m2, m3.
Qed.

Lemma split_nonempty sep s : split sep s <> [].
Proof.
  destruct s as [|c s]; simpl; [discriminate|].
  destruct (Ascii.eqb c sep); [discriminate|].
  destruct (split sep s); discriminate.
Qed.

(** Splitting distributes over a separator in the middle of the text. *)
Lemma split_app sep a b :
  split sep (a +:+ String sep b) = split sep a ++ split sep b.
Proof.
  induction a as [|c a IH]; simpl.
  - now rewrite Ascii.eqb_refl.
  - destruct (Ascii.eqb c sep); [now rewrite IH|].
    rewrite IH. pose proof (split_nonempty sep a) as Hne.
    destruct (split sep a) as [|tok toks]; [now destruct Hne | reflexivity].
Qed.

Lemma split_no_slash v : no_slash v = true -> split "/" v = [v].
Proof.
  induction v as [|c v IH]; simpl; [reflexivity|].
  intros H. apply andb_prop in H as [Hc Hv].
  apply negb_true_iff in Hc. rewrite Hc, (IH Hv). reflexivity.
Qed.

(** [tokens[tokens.length - 1]] is the last segment of the reference. *)
Lemma last_token ref v :
  last_segment ref v ->
  split "/" ref !! (length (split "/" ref) - 1)%nat = Some v.
Proof.
  intros [Hv Href].
  replace (length (split "/" ref) - 1)%nat with (pred (length (split "/" ref))) by lia.
  rewrite <- last_lookup.
  destruct Href as [-> | [pre ->]].
  - now rewrite (split_no_slash v Hv).
  - change (pre +:+ "/" +:+ v) with (pre +:+ String "/" v).
    rewrite split_app, (split_no_slash v Hv). apply last_snoc.
Qed.

(** Every reference has a last segment. *)
Lemma last_segment_exists ref : exists v, last_segment ref v.
Proof.
  induction ref as [|c ref [v [Hv Href]]].
  - exists EmptyString. split; [reflexivity | now left].
  - destruct (Ascii.eqb_spec c "/") as [-> | Hc].
    + exists v. split; [exact Hv|]. right.
      destruct Href as [-> | [pre ->]].
      * now exists EmptyString.
      * now exists (String "/" pre).
    + destruct Href as [-> | [pre ->]].
      * exists (String c v). split; [|now left].
        simpl. rewrite Hv. apply Ascii.eqb_neq in Hc. now rewrite Hc.
      * exists v. split; [exact Hv|]. right. now exists (String c pre).
Qed.

Lemma version_form_no_slash v : version_form v -> no_slash v = true.
Proof.
  intros (p & r & q & -> & Hp & [_ Hr] & [_ Hq]).
  assert (Hdig : forall s t, all_digits s = true -> no_slash t = true ->
                             no_slash (s +:+ t) = true).
  { induction s as [|c s IH]; simpl; intros t Hs Ht; [exact Ht|].
    apply andb_prop in Hs as [Hc Hs]. rewrite (IH _ Hs Ht).
    destruct c as [[] [] [] [] [] [] [] []]; try discriminate; reflexivity. }
  change (no_slash (String "v" (String p (String "." (r +:+ String "." q)))) = true).
  cbn [no_slash].
  rewrite (Hdig r (String "." q) Hr).
  - destruct p as [[] [] [] [] [] [] [] []]; try discriminate; reflexivity.
  - cbn [no_slash]. rewrite <- (append_nil_r q). now rewrite (Hdig q EmptyString Hq).
Qed.

(** What [parseProject] computes, in terms of the last segment. *)
Lemma parseProject_last_segment ctx ty ref v :
  last_segment ref v ->
  parseProject ctx ty ref =
  match checkRequestType ty with
  | Throw e => Throw e
  | Return t =>
      match match_version v with
      | Some (m1, m2, m3) =>
          Return {| type := t;
                    owner := ctx_owner ctx;
                    mainRepo := ctx_owner ctx +:+ "/" +:+ ctx_repo ctx;
                    testRepo := ctx_owner ctx +:+ "/" +:+ testDir;
                    project := to_Number m1;
                    reviews := to_Number m2;
                    patches := to_Number m3;
                    version := v |}
      | None => Throw (Error ("Unable to parse project information from: " +:+ ref))
      end
  end.
Proof.
  intros H. unfold parseProject. destruct (checkRequestType ty); [|reflexivity].
  cbv zeta. now rewrite (last_token ref v H).
Qed.

(** A reference in which no piece at all has the form [v<1-4>.<int>.<int>]
    is rejected, whatever its slashes. *)
Lemma parseProject_rejects_without_match ctx ty ref :
  (forall pre v post, ref = pre +:+ v +:+ post -> ~ version_form v) ->
  exists e, parseProject ctx ty ref = Throw e.
Proof.
  intros Hnone. destruct (last_segment_exists ref) as [v Hseg].
  rewrite (parseProject_last_segment ctx ty ref v Hseg).
  destruct (checkRequestType ty) as [t|e]; [|now exists e].
  destruct (match_version v) as [m|] eqn:Hm; [|eauto].
  exfalso. destruct Hseg as [_ [-> | [pre ->]]].
  - apply (Hnone EmptyString v EmptyString); [now rewrite append_nil_r|].
    apply match_version_form. now exists m.
  - apply (Hnone (pre +:+ "/") v EmptyString).
    + now rewrite append_nil_r, append_assoc.
    + apply match_version_form. now exists m.
Qed.

(** C5, as amended. The pattern is applied to the last segment of the
    reference only: whenever that segment is not of the form
    [v<1-4>.<int>.<int>], [parseProject] throws and returns no details; the
    error is the parse error naming the reference, unless the review type
    was rejected first. *)
Theorem parseProject_rejects_bad_segment ctx ty ref v :
  last_segment ref v ->
  ~ version_form v ->
  (exists e, parseProject ctx ty ref = Throw e) /\
  (forall t, checkRequestType ty = Return t ->
     parseProject ctx ty ref =
     Throw (Error ("Unable to parse project information from: " +:+ ref))).
Proof.
  intros Hseg Hform. rewrite (parseProject_last_segment ctx ty ref v Hseg).
  assert (Hnone : match_version v = None).
  { destruct (match_version v) as [m|] eqn:Hm; [|reflexivity].
    destruct Hform. apply match_version_form. now exists m. }
  rewrite Hnone. split.
  - destruct (checkRequestType ty); eauto.
  - intros t ->. reflexivity.
Qed.

Lemma parseProject_rejects_bad_segment_witness :
  parseProject {| ctx_owner := "student"; ctx_repo := "project" |} "s" "refs/tags/v5.0.0" =
  Throw (Error "Unable to parse project information from: refs/tags/v5.0.0").
Proof.
  refine (proj2 (parseProject_rejects_bad_segment _ "s" "refs/tags/v5.0.0" "v5.0.0" _ _)
            "Synchronous" _).
  - split; [reflexivity | right; now exists "refs/tags"].
  - intros H. apply match_version_form in H as [m H]. vm_compute in H. discriminate.
  - reflexivity.
Defined.

(** C5, as stated, fails: a reference that is not itself of the form
    [v<1-4>.<int>.<int>] is parsed all the same when its last segment is. *)
Lemma parseProject_whole_reference_counterexample :
  ~ (forall ctx ty ref, ~ version_form ref -> exists e, parseProject ctx ty ref = Throw e).
Proof.
  intros H.
  destruct (H {| ctx_owner := "student"; ctx_repo := "project" |} "s" "refs/tags/v2.3.1")
    as [e He].
  - intros Hform. apply match_version_form in Hform as [m Hm]. vm_compute in Hm. discriminate.
  - vm_compute in He. discriminate.
Qed.

(** C10. The pattern is applied to what follows the last slash: whenever the
    last segment [v] of a reference has the form [v<1-4>.<int>.<int>] and
    the review type is accepted, parsing the reference succeeds and gives
    the very details that parsing [v] alone gives; for instance
    [refs/tags/v2.3.1] and [v2.3.1]. *)
Theorem parseProject_last_segment_only ctx ty t ref v :
  checkRequestType ty = Return t ->
  last_segment ref v ->
  version_form v ->
  exists d,
    parseProject ctx ty ref = Return d /\
    parseProject ctx ty v = Return d /\
    type d = t /\ version d = v.
Proof.
  intros Hty Hseg Hform.
  assert (Hself : last_segment v v).
  { split; [now apply version_form_no_slash | now left]. }
  rewrite (parseProject_last_segment ctx ty ref v Hseg).
  rewrite (parseProject_last_segment ctx ty v v Hself).
  rewrite Hty. apply match_version_form in Hform as [[[m1 m2] m3] ->].
  eexists. repeat split.
Qed.

Lemma parseProject_last_segment_only_witness :
  exists d,
    parseProject {| ctx_owner := "student"; ctx_repo := "project" |} "s" "refs/tags/v2.3.1"
      = Return d /\
    parseProject {| ctx_owner := "student"; ctx_repo := "project" |} "s" "v2.3.1" = Return d /\
    type d = "Synchronous" /\ version d = "v2.3.1".
Proof.
  apply (parseProject_last_segment_only _ "s" "Synchronous" "refs/tags/v2.3.1" "v2.3.1").
  - reflexivity.
  - split; [reflexivity | right; now exists "refs/tags"].
  - exists "2"%char, "3", "1". repeat split; discriminate.
Defined.

(** ** The review branch *)

Lemma events_of_app (l new : list event) : drop (length l) (l ++ new) = new.
Proof. apply drop_app_length. Qed.

(** Unfolds a sequence of commands and splits on what the oracle answers. *)
Ltac unfold_sequence :=
  unfold events_of, diffRun, checkoutRun, bind, ret, throw, checkExec;
  cbn [param title error chdir default from_option id trace warnings fst snd].

Ltac split_exec :=
  repeat match goal with
  | |- context [exec ?w ?h ?c ?p ?d] =>
      let r := fresh "code" in
      let E := fresh "E" in
      destruct (exec w h c p d) as [r|?] eqn:E;
      [try (destruct (Z.eqb_spec r 0); [try subst r|]) |];
      cbn [negb trace warnings fst snd]
  end.

Ltac normalise_events :=
  cbn [trace warnings fst snd];
  rewrite <- ?app_assoc; rewrite ?events_of_app; cbn [app].

Ltac solve_events :=
  repeat match goal with
  | |- _ /\ _ => split
  | |- forall _, _ => intro
  | |- _ -> _ => intro
  | |- ~ _ => intro
  | H : _ ∈ [] |- _ => apply elem_of_nil in H; destruct H
  | H : _ ∈ _ :: _ |- _ => apply elem_of_cons in H as [H|H]
  | H : Run _ _ _ _ = Run _ _ _ _ |- _ => inversion H; clear H; subst
  | H : Return _ = Return _ |- _ => inversion H; clear H; subst
  | H : Return _ = Throw _ |- _ => discriminate H
  | H : Throw _ = Return _ |- _ => discriminate H
  | H : ?x <> ?x |- _ => destruct H; reflexivity
  end;
  try discriminate; try reflexivity; try congruence; try set_solver.

(** C3. [prepareBranch] creates the review branch only after the quiet diff
    of the main branch against the release answered 0; when that diff
    answers anything else, it throws the message about commits since the
    release and the branch is not created; and when it returns, both the
    empty diff and the checkout have taken place. *)
Theorem prepareBranch_requires_even_main w token ctx release st :
  let out := prepareBranch w token ctx release st in
  let events := events_of (prepareBranch w token ctx release) st in
  (forall result, checkoutRun release result ∈ events -> diffRun release 0 ∈ events) /\
  (forall code, code <> 0 -> diffRun release code ∈ events ->
     out.1 = Throw (Error (diverged release)) /\
     forall result, checkoutRun release result ∉ events) /\
  (forall branch, out.1 = Return branch ->
     diffRun release 0 ∈ events /\ checkoutRun release (Return 0) ∈ events).
Proof.
  unfold prepareBranch. unfold_sequence. split_exec.
  all: normalise_events.
  all: solve_events.
Qed.

Lemma prepareBranch_requires_even_main_witness :
  (prepareBranch Sample.ahead "token" Sample.student "v2.3.1" initial).1 =
    Throw (Error (diverged "v2.3.1")) /\
  forall result,
    checkoutRun "v2.3.1" result ∉
      events_of (prepareBranch Sample.ahead "token" Sample.student "v2.3.1") initial.
Proof.
  apply (proj1 (proj2 (prepareBranch_requires_even_main
                         Sample.ahead "token" Sample.student "v2.3.1" initial)) 1).
  - discriminate.
  - vm_compute. do 2 apply list_elem_of_further. apply list_elem_of_here.
Defined.

(** The branch that [prepareBranch] returns. *)
Lemma prepareBranch_returns w token ctx release st branch :
  (prepareBranch w token ctx release st).1 = Return branch ->
  branch = "review/" +:+ release.
Proof.
  unfold prepareBranch. unfold_sequence. split_exec.
  all: cbn [fst]; intros H; try discriminate H.
  now inversion H.
Qed.

Lemma prepareBranch_succeeds w token ctx release st :
  (forall history command args dir, exec w history command args dir = Return 0) ->
  (prepareBranch w token ctx release st).1 = Return ("review/" +:+ release).
Proof.
  intros Hexec. unfold prepareBranch. unfold_sequence. split_exec.
  all: cbn [fst]; try reflexivity.
  all: repeat match goal with
       | E : exec _ _ _ _ _ = _ |- _ =>
           rewrite Hexec in E; try discriminate E; inversion E; clear E
       end; congruence.
Qed.

(** C9. The reference [v2.3.1] with the type flag [s] parses to project 2,
    reviews 3, patches 1 and type Synchronous; the branch that
    [prepareBranch] returns for a parsed version tag is [review/] followed by
    that tag, here [review/v2.3.1], and it is returned whenever every
    command succeeds. *)
Theorem reference_v231_end_to_end ctx :
  parseProject ctx "s" "v2.3.1" =
    Return {| type := "Synchronous";
              owner := ctx_owner ctx;
              mainRepo := ctx_owner ctx +:+ "/" +:+ ctx_repo ctx;
              testRepo := ctx_owner ctx +:+ "/" +:+ testDir;
              project := Finite 2;
              reviews := Finite 3;
              patches := Finite 1;
              version := "v2.3.1" |} /\
  (forall ty ref d w token st branch,
     parseProject ctx ty ref = Return d ->
     (prepareBranch w token ctx (version d) st).1 = Return branch ->
     branch = "review/" +:+ version d) /\
  (forall w token st,
     (forall history command args dir, exec w history command args dir = Return 0) ->
     (prepareBranch w token ctx "v2.3.1" st).1 = Return "review/v2.3.1").
Proof.
  split; [reflexivity|]. split.
  - intros ty ref d w token st branch _ H. exact (prepareBranch_returns _ _ _ _ _ _ H).
  - intros w token st H. exact (prepareBranch_succeeds w token ctx "v2.3.1" st H).
Qed.

Lemma reference_v231_end_to_end_witness :
  (prepareBranch Sample.calm "token" Sample.student "v2.3.1" initial).1 =
    Return "review/v2.3.1".
Proof.
  apply (proj2 (proj2 (reference_v231_end_to_end Sample.student)) Sample.calm).
  intros history command args dir. reflexivity.
Defined.

(** ** The scans of the request sequence *)

Lemma body_split w ctx saved rest st0 :
  body w ctx saved rest st0 =
  bind (upToScans w saved)
       (fun states => bind (checkCleanup w) (fun _ => fromCommit w ctx rest states)) st0.
Proof.
  unfold body, upToScans, fromCommit, bind, ret.
  destruct (lift (restoreStates saved ∅) st0) as [[states|e] st1]; [|reflexivity].
  destruct (displayEnvironment w st1) as [[[]|e] st2]; [|reflexivity].
  destruct (checkCompile w st2) as [[[]|e] st3]; reflexivity.
Qed.

Lemma run_of_body w ctx saved rest st0 :
  run w ctx saved rest st0 =
  match body w ctx saved rest st0 with
  | (Return a, st) => (Return a, st)
  | (Throw e, st) =>
      (Return tt, after st (SetFailed ("Code review request failed. " +:+ message e)))
  end.
Proof. unfold run, try_catch. destruct (body w ctx saved rest st0) as [[a|e] st]; reflexivity. Qed.

(** What follows the scans starts with the commit on the review branch. *)
Lemma createBranch_commits_first w states st :
  head (events_of (createBranch w states) st) =
  Some (Run "git" (commitParam states) (Some (mainDir +:+ "/"))
            (exec w (trace st) "git" (commitParam states) (Some (mainDir +:+ "/")))).
Proof.
  unfold createBranch. unfold_sequence.
  destruct (exec w (trace st) "git" (commitParam states) (Some (mainDir +:+ "/")))
    as [code|e] eqn:E; [destruct (Z.eqb_spec code 0)|]; cbn [negb trace warnings fst snd].
  2, 3: now rewrite events_of_app.
  match goal with
  | |- context [exec ?w ?h ?c ?p ?d] => destruct (exec w h c p d) as [code'|e']
  end; [destruct (Z.eqb_spec code' 0)|]; cbn [negb trace warnings fst snd];
    now rewrite <- app_assoc, events_of_app.
Qed.

(** C4. Once the request sequence has reached its scans: whatever integer
    the TODO scan answers, an answer other than 1 makes the sequence throw
    (and the action fail) without running anything else, and the answer 1
    lets it go on to the main-method scan; whatever integer that scan
    answers, an answer other than 1 makes the sequence throw, and the answer
    1 lets it go on with the branch commit and what follows. *)
Theorem scan_gates_are_exact w ctx saved rest st0 states st todo :
  upToScans w saved st0 = (Return states, st) ->
  exec w (trace st) "grep" todoParam (Some sourceDir) = Return todo ->
  (todo <> 1 ->
     body w ctx saved rest st0 = (Throw (Error todoFound), after st (todoRun todo)) /\
     run w ctx saved rest st0 =
       (Return tt, after (after st (todoRun todo))
                         (SetFailed ("Code review request failed. " +:+ todoFound)))) /\
  (todo = 1 ->
     forall main,
       exec w (trace (after st (todoRun todo))) "grep" mainParam (Some sourceDir)
         = Return main ->
       let st2 := after (after st (todoRun todo)) (mainRun main) in
       (main <> 1 ->
          body w ctx saved rest st0 = (Throw (Error mainFound), st2) /\
          run w ctx saved rest st0 =
            (Return tt, after st2 (SetFailed ("Code review request failed. " +:+ mainFound)))) /\
       (main = 1 ->
          body w ctx saved rest st0 = fromCommit w ctx rest states st2 /\
          exists result,
            head (events_of (createBranch w states) st2) =
            Some (Run "git" (commitParam states) (Some (mainDir +:+ "/")) result))).
Proof.
  intros Hreach Htodo.
  assert (Hbody : body w ctx saved rest st0 =
                  bind (checkCleanup w) (fun _ => fromCommit w ctx rest states) st).
  { rewrite body_split. unfold bind at 1. now rewrite Hreach. }
  split.
  - intros Hne.
    assert (Hthrow : body w ctx saved rest st0 =
                     (Throw (Error todoFound), after st (todoRun todo))).
    { rewrite Hbody. unfold checkCleanup, bind, checkExec, throw.
      cbn [param title error chdir default from_option id]. rewrite Htodo.
      destruct (Z.eqb_spec todo 1); [contradiction | reflexivity]. }
    split; [exact Hthrow|]. rewrite run_of_body, Hthrow. reflexivity.
  - intros -> main Hmain st2. split.
    + intros Hne.
      assert (Hthrow : body w ctx saved rest st0 = (Throw (Error mainFound), st2)).
      { rewrite Hbody. unfold checkCleanup, bind, checkExec, throw.
        cbn [param title error chdir default from_option id]. rewrite Htodo.
        cbn [Z.eqb Pos.eqb negb]. unfold after, todoRun in Hmain. cbn [trace] in Hmain.
        cbn [trace warnings]. rewrite Hmain.
        destruct (Z.eqb_spec main 1); [contradiction | reflexivity]. }
      split; [exact Hthrow|]. rewrite run_of_body, Hthrow. reflexivity.
    + intros ->. split; [|eexists; apply createBranch_commits_first].
      rewrite Hbody. unfold checkCleanup, bind, checkExec, throw, ret.
      cbn [param title error chdir default from_option id]. rewrite Htodo.
      cbn [Z.eqb Pos.eqb negb]. unfold after, todoRun in Hmain. cbn [trace] in Hmain.
      cbn [trace warnings]. rewrite Hmain. reflexivity.
Qed.

Lemma scan_gates_are_exact_witness :
  body Sample.tidy Sample.student ∅ Sample.no_rest initial =
  fromCommit Sample.tidy Sample.student Sample.no_rest ∅
    (after (after Sample.tidy_reached (todoRun 1)) (mainRun 1)).
Proof.
  refine (proj1 (proj2 (proj2 (scan_gates_are_exact Sample.tidy Sample.student ∅
                                 Sample.no_rest initial ∅ Sample.tidy_reached 1 _ _)
                          eq_refl 1 _) eq_refl)).
  - reflexivity.
  - reflexivity.
  - reflexivity.
Defined.

(** ** The release verifier *)

(** With both requests answered by status 200, the verdict is that of the
    first run on the release's branch among all the runs listed. *)
Lemma verifyRelease_resolved w ctx release st rel runs :
  repos_getReleaseByTag w ctx release = Resolved {| status := 200; data := rel |} ->
  actions_listWorkflowRuns w ctx = Resolved {| status := 200; data := runs |} ->
  (verifyRelease w ctx release st).1 =
  match List.find (on_branch release) runs with
  | None =>
      Throw (Error ("Unable to verify release " +:+ release +:+ " (" +:+
                    toLowerCase "workflow run not found" +:+ ")."))
  | Some found =>
      if not_successful found
      then Throw (Error ("Unable to verify release " +:+ release +:+ " (" +:+
                         toLowerCase ("run #" +:+ string_of_Z (run_number found) +:+ " id " +:+
                                      string_of_Z (run_id found) +:+ " not successful") +:+
                         ")."))
      else Return {| v_release := rel; v_workflow := found |}
  end.
Proof.
  intros Hrel Hruns.
  unfold verifyRelease. rewrite Hrel, Hruns.
  cbv beta iota zeta delta [bind try_catch await emit info dump ret throw
                            status data Z.eqb Pos.eqb negb trace warnings fst snd].
  destruct (List.find (on_branch release) runs) as [found|]; [|reflexivity].
  destruct (not_successful found); reflexivity.
Qed.

(** C1, on the release of [Sample.failed_tests]: the filtered set holds one
    run on the release's branch, the failed test run, yet [verifyRelease]
    succeeds and returns the identifiers of a run outside the filtered set.
    The run is looked up among all the listed runs; the filter only feeds
    the list of branches that is printed. *)
Theorem verifyRelease_takes_unfiltered_run :
  List.filter is_release_test_run [Sample.push_run; Sample.test_run] = [Sample.test_run] /\
  List.find (on_branch "v1.0.0") (List.filter is_release_test_run
                                    [Sample.push_run; Sample.test_run])
    = Some Sample.test_run /\
  not_successful Sample.test_run = true /\
  (verifyRelease Sample.failed_tests Sample.student "v1.0.0" initial).1 =
    Return {| v_release := Sample.release_v100; v_workflow := Sample.push_run |}.
Proof. repeat split. Qed.

(** ** The issue and pull request gatekeeper *)

Lemma find_first {A} (p : A -> bool) (l : list A) (x : A) :
  List.find p l = Some x <->
  exists before rest,
    l = before ++ x :: rest /\ (forall y, y ∈ before -> p y = false) /\ p x = true.
Proof.
  split.
  - induction l as [|y l IH]; simpl; [discriminate|].
    destruct (p y) eqn:Hy.
    + intros [= ->]. exists [], l. repeat split; [|exact Hy].
      intros z Hz. now apply elem_of_nil in Hz.
    + intros H. destruct (IH H) as (before & rest & -> & Hb & Hx).
      exists (y :: before), rest. repeat split; [|exact Hx].
      intros z Hz. apply elem_of_cons in Hz as [->|Hz]; auto.
  - intros (before & rest & -> & Hb & Hx).
    induction before as [|y before IH]; simpl.
    + now rewrite Hx.
    + rewrite (Hb y) by apply list_elem_of_here.
      apply IH. intros z Hz. apply Hb. now apply list_elem_of_further.
Qed.

Lemma find_nothing {A} (p : A -> bool) (l : list A) :
  List.find p l = None <-> forall y, y ∈ l -> p y = false.
Proof.
  induction l as [|y l IH]; simpl.
  - split; [|reflexivity]. intros _ z Hz. now apply elem_of_nil in Hz.
  - destruct (p y) eqn:Hy.
    + split; [discriminate|]. intros H. rewrite (H y) in Hy by apply list_elem_of_here.
      discriminate.
    + rewrite IH. split.
      * intros H z Hz. apply elem_of_cons in Hz as [->|Hz]; auto.
      * intros H z Hz. apply H. now apply list_elem_of_further.
Qed.

Lemma getIssues_resolved w ctx project type st l :
  issues_listForRepo w ctx ("project" +:+ project +:+ "," +:+ toLowerCase type)
    = Resolved {| status := 200; data := l |} ->
  getIssues w ctx project type st = (Return l, after st (Request "issues.listForRepo")).
Proof.
  intros H. unfold getIssues. rewrite H. reflexivity.
Qed.

(** A listing that answers another status is dumped and is fatal. *)
Lemma getIssues_status w ctx project type st s l :
  issues_listForRepo w ctx ("project" +:+ project +:+ "," +:+ toLowerCase type)
    = Resolved {| status := s; data := l |} ->
  s <> 200 ->
  getIssues w ctx project type st =
  (Throw (Error ("Unable to list issues from: " +:+ ctx_repo ctx)),
   after (after st (Request "issues.listForRepo")) (Dump "result")).
Proof.
  intros H Hs. unfold getIssues. rewrite H.
  cbv beta iota zeta delta [bind await emit dump ret throw status data].
  destruct (Z.eqb_spec s 200); [contradiction | reflexivity].
Qed.

(** C2, as amended. Given the four listings, [checkIssues] succeeds exactly
    when some functionality issue is approved, no design issue is approved
    and no entry of the synchronous and asynchronous listings is an open
    pull request; it then returns the number and the url of the first
    approved functionality issue. *)
Theorem checkIssues_gate w ctx project st funs des sync async a :
  issues_listForRepo w ctx ("project" +:+ project +:+ ",functionality")
    = Resolved {| status := 200; data := funs |} ->
  issues_listForRepo w ctx ("project" +:+ project +:+ ",design")
    = Resolved {| status := 200; data := des |} ->
  issues_listForRepo w ctx ("project" +:+ project +:+ ",synchronous")
    = Resolved {| status := 200; data := sync |} ->
  issues_listForRepo w ctx ("project" +:+ project +:+ ",asynchronous")
    = Resolved {| status := 200; data := async |} ->
  (checkIssues w ctx project st).1 = Return a <->
  (exists before f rest,
     funs = before ++ f :: rest /\
     (forall x, x ∈ before -> approved x = false) /\
     approved f = true /\
     a = {| issueNumber := issue_number f; issueUrl := issue_html_url f |}) /\
  (forall x, x ∈ des -> approved x = false) /\
  (forall x, x ∈ sync ++ async -> open_pull x = false).
Proof.
  intros Hfun Hdes Hsync Hasync.
  unfold checkIssues, bind.
  rewrite (getIssues_resolved w ctx project "functionality" st funs Hfun).
  destruct (List.find approved funs) as [funPassed|] eqn:Ffun.
  - rewrite (getIssues_resolved w ctx project "design" _ des Hdes).
    destruct (List.find approved des) as [desPassed|] eqn:Fdes.
    + cbn [throw fst]. split; [discriminate|]. intros (_ & Hno & _).
      apply (proj2 (find_nothing _ _)) in Hno. congruence.
    + rewrite (getIssues_resolved w ctx project "synchronous" _ sync Hsync).
      rewrite (getIssues_resolved w ctx project "asynchronous" _ async Hasync).
      destruct (List.find open_pull (sync ++ async)) as [openPull|] eqn:Fpull.
      * cbn [dump emit throw fst]. split; [discriminate|]. intros (_ & _ & Hno).
        apply (proj2 (find_nothing _ _)) in Hno. congruence.
      * cbn [ret fst].
        pose proof (proj1 (find_nothing _ _) Fdes) as Hdes0.
        pose proof (proj1 (find_nothing _ _) Fpull) as Hpull0. split.
        -- intros [= <-]. repeat split; try assumption.
           apply find_first in Ffun as (before & rest & Hl & Hb & Hf).
           now exists before, funPassed, rest.
        -- intros ((before & f & rest & Hl & Hb & Hf & ->) & _ & _).
           assert (Hfind : List.find approved funs = Some f).
           { apply find_first. now exists before, rest. }
           congruence.
  - cbn [throw fst]. split; [discriminate|].
    intros ((before & f & rest & Hl & Hb & Hf & _) & _ & _).
    assert (Hfind : List.find approved funs = Some f).
    { apply find_first. now exists before, rest. }
    congruence.
Qed.

Lemma checkIssues_gate_witness :
  (checkIssues Sample.approved_twice Sample.student "2" initial).1 =
  Return {| issueNumber := 3; issueUrl := "https://github.com/student/project/issues/3" |}.
Proof.
  apply (checkIssues_gate Sample.approved_twice Sample.student "2" initial
           Sample.two_approvals [] [] []); try reflexivity.
  repeat split.
  - exists [], (Sample.approved_issue 3 "https://github.com/student/project/issues/3"),
      [Sample.approved_issue 5 "https://github.com/student/project/issues/5"].
    repeat split. intros x Hx. now apply elem_of_nil in Hx.
  - intros x Hx. now apply elem_of_nil in Hx.
  - intros x Hx. now apply elem_of_nil in Hx.
Defined.

(** C2, as stated, fails: with two approved functionality issues on file the
    gatekeeper still succeeds, so success does not require that exactly one
    functionality issue is approved. *)
Lemma checkIssues_exactly_one_counterexample :
  ~ (forall w ctx project st funs a,
       issues_listForRepo w ctx ("project" +:+ project +:+ ",functionality")
         = Resolved {| status := 200; data := funs |} ->
       (checkIssues w ctx project st).1 = Return a ->
       length (List.filter approved funs) = 1%nat).
Proof.
  intros H.
  specialize (H Sample.approved_twice Sample.student "2" initial Sample.two_approvals
                {| issueNumber := 3;
                   issueUrl := "https://github.com/student/project/issues/3" |}
                eq_refl eq_refl).
  vm_compute in H. discriminate H.
Qed.

(** ** Status checks of the forge helpers *)

(** A milestone listing that answers another status than 200 ends in a
    ReferenceError: nothing is dumped and the descriptive error is not
    reached. *)
Lemma getMilestone_listing_status w ctx project st s l :
  issues_listMilestones w ctx = Resolved {| status := s; data := l |} ->
  s <> 200 ->
  getMilestone w ctx project st =
  (Throw (ReferenceError "SON is not defined"), after st (Request "issues.listMilestones")).
Proof.
  intros H Hs. unfold getMilestone. rewrite H.
  cbv beta iota zeta delta [bind await emit ret throw status data].
  destruct (Z.eqb_spec s 200); [contradiction | reflexivity].
Qed.

(** A milestone creation that answers another status than 201 is dumped and
    raises the descriptive error. *)
Lemma getMilestone_creation_status w ctx project st l s m :
  issues_listMilestones w ctx = Resolved {| status := 200; data := l |} ->
  List.find (fun x => String.eqb (ms_title x) ("Project " +:+ project)) l = None ->
  issues_createMilestone w ctx ("Project " +:+ project)
      ("Project " +:+ project +:+ " " +:+ projectName project)
    = Resolved {| status := s; data := m |} ->
  s <> 201 ->
  getMilestone w ctx project st =
  (Throw (Error ("Unable to create " +:+ ("Project " +:+ project) +:+ " milestone in: " +:+
                 ctx_repo ctx)),
   after (after (after st (Request "issues.listMilestones"))
                (Request "issues.createMilestone"))
         (Dump "create")).
Proof.
  intros Hlist Hfind Hcreate Hs. unfold getMilestone. rewrite Hlist.
  cbv beta iota zeta delta [bind await emit dump ret throw status data].
  change (negb (200 =? 200)) with false. cbv beta iota.
  rewrite Hfind, Hcreate.
  cbv beta iota zeta delta [bind await emit dump ret throw status data].
  destruct (Z.eqb_spec s 201); [contradiction | reflexivity].
Qed.

(** The pull request listing: 404 is a warning and an empty list, any other
    status than 200 is dumped and raises the descriptive error. *)
Lemma getPullRequests_status w ctx project st s l :
  pulls_list w ctx = Resolved {| status := s; data := l |} ->
  (s = 404 ->
     getPullRequests w ctx project st =
     (Return [],
      {| trace := trace st ++ [Request "pulls.list";
                               Warning ("Pull requests not found for: " +:+ ctx_repo ctx)];
         warnings := S (warnings st) |})) /\
  (s <> 404 -> s <> 200 ->
     getPullRequests w ctx project st =
     (Throw (Error ("Unable to list pull requests in: " +:+ ctx_repo ctx)),
      after (after st (Request "pulls.list")) (Dump "result"))).
Proof.
  intros H. unfold getPullRequests. rewrite H.
  cbv beta iota zeta delta [bind await emit dump showWarning ret throw status data
                            trace warnings].
  split.
  - intros ->. cbn [Z.eqb Pos.eqb]. now rewrite <- app_assoc.
  - intros H404 H200.
    destruct (Z.eqb_spec s 404); [contradiction|].
    destruct (Z.eqb_spec s 200); [contradiction | reflexivity].
Qed.

(** C8, during [Sample.outage], where every request is answered by status
    500: the release lookup, the issue listing and the pull request listing
    dump the response and raise their descriptive errors, and a 404 on the pull request
    listing is a warning with an empty list; but the milestone listing
    raises a ReferenceError about the misspelt name [SON], dumps nothing and
    never reaches its descriptive error. *)
Theorem getMilestone_status_check_misspelt :
  verifyRelease Sample.outage Sample.student "v1.0.0" initial =
    (Throw (Error "Unable to fetch release v1.0.0 (500 exit code)."),
     {| trace := [Request "repos.getReleaseByTag"; Dump "result"]; warnings := 0 |}) /\
  getIssues Sample.outage Sample.student "2" "functionality" initial =
    (Throw (Error "Unable to list issues from: project"),
     {| trace := [Request "issues.listForRepo"; Dump "result"]; warnings := 0 |}) /\
  getPullRequests Sample.outage Sample.student "2" initial =
    (Throw (Error "Unable to list pull requests in: project"),
     {| trace := [Request "pulls.list"; Dump "result"]; warnings := 0 |}) /\
  getPullRequests Sample.no_pulls Sample.student "2" initial =
    (Return [],
     {| trace := [Request "pulls.list"; Warning "Pull requests not found for: project"];
        warnings := 1 |}) /\
  getMilestone Sample.outage Sample.student "2" initial =
    (Throw (ReferenceError "SON is not defined"),
     {| trace := [Request "issues.listMilestones"]; warnings := 0 |}).
Proof. repeat split. Qed.

(** ** The saved states *)

(** *** Reading back what [JSON.stringify] wrote *)

Lemma parse_quote_char c acc done rest :
  JSON.parse_from (JSON.PString acc) done (JSON.quote_char c +:+ rest) =
  JSON.parse_from (JSON.PString (JSON.snoc acc c)) done rest.
Proof. destruct c as [[] [] [] [] [] [] [] []]; reflexivity. Qed.

Lemma parse_quote_body s acc done rest :
  JSON.parse_from (JSON.PString acc) done (JSON.quote_body s +:+ rest) =
  JSON.parse_from (JSON.PString (acc +:+ s)) done rest.
Proof.
  revert acc. induction s as [|c s IH]; intros acc; cbn [JSON.quote_body].
  - now rewrite append_nil_r.
  - rewrite append_assoc, parse_quote_char, IH. unfold JSON.snoc.
    now rewrite append_assoc.
Qed.

Lemma parse_quote st done s rest :
  st = JSON.PFirst \/ st = JSON.PNext ->
  JSON.parse_from st done (JSON.quote s +:+ rest) =
  JSON.parse_from JSON.PAfter (done ++ [s]) rest.
Proof.
  intros Hst. unfold JSON.quote. rewrite !append_assoc.
  change (dq +:+ JSON.quote_body s +:+ dq +:+ rest)
    with (String "034" (JSON.quote_body s +:+ dq +:+ rest)).
  assert (Hopen : forall text, JSON.parse_from st done (String "034" text) =
                               JSON.parse_from (JSON.PString EmptyString) done text).
  { intros text. destruct Hst as [-> | ->]; reflexivity. }
  rewrite Hopen, parse_quote_body. reflexivity.
Qed.

Lemma parse_elements ks : forall st done,
  st = JSON.PFirst \/ st = JSON.PNext ->
  ks <> [] ->
  JSON.parse_from st done (String.concat "," (map JSON.quote ks) +:+ "]") = Some (done ++ ks).
Proof.
  induction ks as [|k ks IH]; intros st done Hst Hne; [now destruct Hne|].
  destruct ks as [|k' ks].
  - cbn [map String.concat]. now rewrite (parse_quote st done k "]" Hst).
  - change (String.concat "," (map JSON.quote (k :: k' :: ks)))
      with (JSON.quote k +:+ "," +:+ String.concat "," (map JSON.quote (k' :: ks))).
    rewrite append_assoc, (parse_quote st done k _ Hst).
    rewrite append_assoc.
    change ("," +:+ String.concat "," (map JSON.quote (k' :: ks)) +:+ "]")
      with (String "," (String.concat "," (map JSON.quote (k' :: ks)) +:+ "]")).
    change (JSON.parse_from JSON.PNext (done ++ [k])
              (String.concat "," (map JSON.quote (k' :: ks)) +:+ "]")
            = Some (done ++ k :: k' :: ks)).
    rewrite (IH JSON.PNext (done ++ [k])); [|now right|discriminate].
    now rewrite <- app_assoc.
Qed.

(** [JSON.parse(JSON.stringify(keys))] gives the keys back. *)
Lemma parse_stringify ks : JSON.parse (JSON.stringify ks) = Some ks.
Proof.
  unfold JSON.parse, JSON.stringify.
  change ("[" +:+ String.concat "," (map JSON.quote ks) +:+ "]")
    with (String "[" (String.concat "," (map JSON.quote ks) +:+ "]")).
  destruct ks as [|k ks]; [reflexivity|].
  change (JSON.parse_from JSON.PFirst []
            (String.concat "," (map JSON.quote (k :: ks)) +:+ "]") = Some (k :: ks)).
  rewrite (parse_elements (k :: ks) JSON.PFirst []); [reflexivity | now left | discriminate].
Qed.

(** *** The store *)

Lemma Object_keys_elem (o : gmap string string) k :
  k ∈ Object_keys o <-> is_Some (o !! k).
Proof.
  unfold Object_keys. rewrite list_elem_of_fmap. split.
  - intros ([k' v] & -> & H). apply elem_of_map_to_list in H. now exists v.
  - intros [v H]. exists (k, v). split; [reflexivity|]. now apply elem_of_map_to_list.
Qed.

Lemma save_each_lookup ks (states saved : gmap string string) k :
  save_each ks states saved !! k =
  if decide (k ∈ ks) then Some (default EmptyString (states !! k)) else saved !! k.
Proof.
  unfold save_each. revert saved. induction ks as [|x ks IH]; intros saved; cbn [foldl].
  - destruct (decide (k ∈ [])) as [H|_]; [now apply elem_of_nil in H | reflexivity].
  - rewrite IH. unfold saveState.
    destruct (decide (k ∈ ks)) as [Hin|Hout].
    + rewrite decide_True by now apply list_elem_of_further. reflexivity.
    + destruct (decide (k = x)) as [->|Hne].
      * rewrite decide_True by apply list_elem_of_here. apply lookup_insert_eq.
      * rewrite decide_False by (intros [?|?]%elem_of_cons; contradiction).
        now apply lookup_insert_ne.
Qed.

Lemma assign_lookup key value (states : gmap string string) k :
  assign key value states !! k =
  if decide (k = key /\ (k <> "__proto__" \/ is_Some (states !! k)))
  then Some value else states !! k.
Proof.
  unfold assign.
  destruct (String.eqb_spec key "__proto__") as [->|Hkey]; cbn [andb].
  - destruct (bool_decide_reflect (is_Some (states !! "__proto__"))) as [Hown|Hnone];
      cbn [negb].
    + destruct (decide (k = "__proto__")) as [->|Hne].
      * rewrite decide_True by (split; [reflexivity | now right]). apply lookup_insert_eq.
      * rewrite decide_False by (intros [? _]; contradiction).
        now apply lookup_insert_ne.
    + rewrite decide_False; [reflexivity|].
      intros [-> [H|H]]; [now apply H | now apply Hnone].
  - destruct (decide (k = key)) as [->|Hne].
    + rewrite decide_True by (split; [reflexivity | now left]). apply lookup_insert_eq.
    + rewrite decide_False by (intros [? _]; contradiction).
      now apply lookup_insert_ne.
Qed.

(** The loop assigns every listed name, [__proto__] only to an object that
    has it as a property of its own. *)
Lemma restore_each_lookup ks (saved states : gmap string string) k :
  restore_each ks saved states !! k =
  if decide (k ∈ ks /\ (k <> "__proto__" \/ is_Some (states !! k)))
  then Some (getState k saved) else states !! k.
Proof.
  unfold restore_each. revert states. induction ks as [|x ks IH]; intros states; cbn [foldl].
  - rewrite decide_False; [reflexivity|]. intros [H _]. now apply elem_of_nil in H.
  - rewrite IH, assign_lookup.
    destruct (decide (k = x /\ (k <> "__proto__" \/ is_Some (states !! k))))
      as [[-> Hset]|Hskip].
    + rewrite (decide_True (P := x ∈ x :: ks /\ _))
        by (split; [apply list_elem_of_here | exact Hset]).
      destruct (decide (x ∈ ks /\ (x <> "__proto__" \/ is_Some (Some (getState x saved)))));
        reflexivity.
    + destruct (decide (k ∈ ks /\ (k <> "__proto__" \/ is_Some (states !! k))))
        as [[Hin Hset]|Hout].
      * rewrite (decide_True (P := k ∈ x :: ks /\ _))
          by (split; [now apply list_elem_of_further | exact Hset]).
        reflexivity.
      * rewrite (decide_False (P := k ∈ x :: ks /\ _)); [reflexivity|].
        intros [[->|Hin]%elem_of_cons Hset].
        -- apply Hskip. now split.
        -- apply Hout. now split.
Qed.

(** Restoring what was saved adds the saved states to the given ones, as
    long as no state is itself named keys; a state named [__proto__] is
    added only to an object that has such a property of its own. *)
Lemma restore_saved (states saved given : gmap string string) :
  states !! "keys" = None ->
  restoreStates (saveStates states saved) given =
  Return ((if decide (is_Some (given !! "__proto__"))
           then states else delete "__proto__" states) ∪ given).
Proof.
  intros Hkeys. unfold restoreStates.
  assert (Htext : getState "keys" (saveStates states saved)
                  = JSON.stringify (Object_keys states)).
  { unfold getState, saveStates, saveState. now rewrite lookup_insert_eq. }
  rewrite Htext.
  destruct (JSON.stringify (Object_keys states)) as [|c text] eqn:Hs; [discriminate Hs|].
  rewrite <- Hs, parse_stringify. f_equal. apply map_eq. intros k.
  rewrite restore_each_lookup.
  assert (Hread : forall v, states !! k = Some v ->
            getState k (saveStates states saved) = v).
  { intros v Hv.
    assert (Hne : "keys" <> k) by (intros <-; congruence).
    unfold getState, saveStates, saveState.
    rewrite lookup_insert_ne by exact Hne.
    rewrite save_each_lookup, decide_True by (apply Object_keys_elem; now exists v).
    now rewrite Hv. }
  destruct (states !! k) as [v|] eqn:Hv.
  - destruct (decide (k = "__proto__" /\ given !! "__proto__" = None)) as [[-> Hnone]|Hset].
    + rewrite decide_False.
      * rewrite decide_False by (rewrite Hnone; intros [? ?]; discriminate).
        rewrite lookup_union_r by apply lookup_delete_eq. reflexivity.
      * intros [_ [H|[? H]]]; [now apply H | congruence].
    + assert (Hown : k <> "__proto__" \/ is_Some (given !! k)).
      { destruct (decide (k = "__proto__")) as [->|Hne]; [|now left].
        right. destruct (given !! "__proto__") as [g|] eqn:Hg; [now exists g|].
        destruct Hset. now split. }
      rewrite decide_True by (split; [apply Object_keys_elem; now exists v | exact Hown]).
      rewrite (Hread v eq_refl). symmetry. apply lookup_union_Some_l.
      destruct (decide (is_Some (given !! "__proto__"))) as [_|Hnone]; [exact Hv|].
      rewrite lookup_delete_ne; [exact Hv|].
      intros <-. destruct Hown as [H|H]; [now apply H | now apply Hnone].
  - rewrite decide_False.
    + symmetry. apply lookup_union_r.
      destruct (decide (is_Some (given !! "__proto__"))) as [_|_]; [exact Hv|].
      destruct (decide (k = "__proto__")) as [->|Hne];
        [apply lookup_delete_eq | now rewrite lookup_delete_ne].
    + intros [[w Hw]%Object_keys_elem _]. congruence.
Qed.

(** C6, as amended. For every mapping from texts to texts that has no key
    named keys and no key named [__proto__], saving it and restoring into a
    fresh object gives the same mapping, keys and values; so does
    [{a: '1', b: '2'}]. When nothing was saved, [restoreStates] returns the
    mapping it was given and throws nothing. *)
Theorem states_round_trip :
  (forall states saved : gmap string string,
     states !! "keys" = None ->
     states !! "__proto__" = None ->
     restoreStates (saveStates states saved) ∅ = Return states) /\
  restoreStates (saveStates {[ "a" := "1"; "b" := "2" ]} ∅) ∅
    = Return {[ "a" := "1"; "b" := "2" ]} /\
  (forall saved states : gmap string string,
     saved !! "keys" = None ->
     restoreStates saved states = Return states).
Proof.
  assert (Hround : forall states saved : gmap string string,
            states !! "keys" = None ->
            states !! "__proto__" = None ->
            restoreStates (saveStates states saved) ∅ = Return states).
  { intros states saved H Hproto. rewrite (restore_saved states saved ∅ H).
    rewrite decide_False by (rewrite lookup_empty; intros [? ?]; discriminate).
    rewrite (right_id_L ∅ (∪)). f_equal. now apply delete_id. }
  split; [exact Hround|]. split.
  - apply Hround; reflexivity.
  - intros saved states H. unfold restoreStates, getState. now rewrite H.
Qed.

Lemma states_round_trip_witness :
  restoreStates (saveStates {[ "branch" := "review/v2.3.1"; "project" := "2" ]} ∅) ∅
    = Return {[ "branch" := "review/v2.3.1"; "project" := "2" ]}.
Proof.
  apply (proj1 states_round_trip); reflexivity.
Defined.

(** C6, as stated, fails: a state that is itself named keys is overwritten
    by the list of keys, and comes back as that list. *)
Lemma states_round_trip_keys_counterexample :
  ~ (forall states : gmap string string,
       restoreStates (saveStates states ∅) ∅ = Return states).
Proof.
  intros H. specialize (H {[ "keys" := "x" ]}).
  apply (f_equal (fun c => match c with
                           | Return m => m !! "keys"
                           | Throw _ => None
                           end)) in H.
  vm_compute in H. discriminate H.
Qed.

(** What becomes of a state named keys. *)
Example states_named_keys :
  restoreStates (saveStates {[ "keys" := "x" ]} ∅) ∅
  = Return {[ "keys" := "[" +:+ dq +:+ "keys" +:+ dq +:+ "]" ]}.
Proof. vm_compute. reflexivity. Qed.

(** What becomes of a state named [__proto__]: it is saved and listed, and
    the fresh object it is restored into does not get it. Both hypotheses
    on the names are needed. *)
Lemma states_named_proto (states saved : gmap string string) :
  states !! "keys" = None ->
  restoreStates (saveStates states saved) ∅ = Return (delete "__proto__" states).
Proof.
  intros H. rewrite (restore_saved states saved ∅ H).
  rewrite decide_False by (rewrite lookup_empty; intros [? ?]; discriminate).
  now rewrite (right_id_L ∅ (∪)).
Qed.

Example states_named_proto_dropped :
  saveStates {[ "__proto__" := "1"; "a" := "2" ]} ∅
    = {[ "__proto__" := "1"; "a" := "2";
         "keys" := "[" +:+ dq +:+ "__proto__" +:+ dq +:+ "," +:+ dq +:+ "a" +:+ dq +:+ "]" ]} /\
  restoreStates (saveStates {[ "__proto__" := "1"; "a" := "2" ]} ∅) ∅
    = Return {[ "a" := "2" ]}.
Proof. split; vm_compute; reflexivity. Qed.

(** ** The label column *)

(** The binary search never runs out of rounds. *)
Lemma search_fuel {A} (cmp : A -> A -> Z) fuel1 : forall fuel2 pivot l left right,
  (right - left <= fuel1)%nat ->
  (right - left <= fuel2)%nat ->
  search cmp fuel1 pivot l left right = search cmp fuel2 pivot l left right.
Proof.
  induction fuel1 as [|fuel1 IH]; intros fuel2 pivot l left right H1 H2.
  - destruct fuel2 as [|fuel2]; [reflexivity|]. cbn [search].
    destruct (Nat.ltb_spec left right); [lia | reflexivity].
  - destruct fuel2 as [|fuel2]; cbn [search].
    + destruct (Nat.ltb_spec left right); [lia | reflexivity].
    + destruct (Nat.ltb_spec left right) as [Hlt|]; [|reflexivity].
      assert (Hhalf : ((right - left) / 2 < right - left)%nat)
        by (apply Nat.div_lt; lia).
      destruct (l !! (left + (right - left) / 2)%nat) as [x|]; [|reflexivity].
      destruct (cmp pivot x <? 0); apply IH; lia.
Qed.

Lemma string_ltb_irrefl x : String.ltb x x = false.
Proof.
  unfold String.ltb. pose proof (String.compare_antisym x x) as H.
  destruct (String.compare x x); [reflexivity | discriminate H | reflexivity].
Qed.

Lemma string_ltb_total x y : x <> y -> String.ltb x y = true \/ String.ltb y x = true.
Proof.
  intros Hne. unfold String.ltb. rewrite (String.compare_antisym y x).
  destruct (String.compare x y) eqn:Hc; cbn; auto.
  apply String.compare_eq_iff in Hc. contradiction.
Qed.

(** On the three labels of the example the comparator is a strict order,
    so every engine answers alike: the only arrangement of them that the
    comparator accepts pairwise is the sorted one. *)
Lemma labels_single_order (l : list label) :
  l ≡ₚ Sample.labels ->
  (forall i j x y, (i < j)%nat -> l !! i = Some x -> l !! j = Some y -> sorter x y < 0) ->
  map label_name l = ["project3"; "v1.2.0"; "zzz"].
Proof.
  intros Hperm Hsorted. symmetry in Hperm. apply permutations_Permutation in Hperm.
  let all := eval vm_compute in (permutations Sample.labels) in
  change (permutations Sample.labels) with all in Hperm.
  repeat match goal with
         | H : _ ∈ _ :: _ |- _ => apply elem_of_cons in H as [H|H]
         | H : _ ∈ [] |- _ => now apply elem_of_nil in H
         end; subst l; try reflexivity; exfalso.
  all: first
    [ pose proof (Hsorted 0 1 _ _ ltac:(lia) eq_refl eq_refl)%nat as Hbad;
      vm_compute in Hbad; discriminate Hbad
    | pose proof (Hsorted 1 2 _ _ ltac:(lia) eq_refl eq_refl)%nat as Hbad;
      vm_compute in Hbad; discriminate Hbad ].
Qed.

(** C7. Sorting the labels v1.2.0, project3, zzz with [sorter] gives
    project3, v1.2.0, zzz, and that is how the table of earlier pull requests
    shows them. The comparator puts a name that starts with
    project before anything, then a name that starts with v before the
    rest, and on two other names it answers -1 for both orderings as soon as
    they differ (0 when they are equal). *)
Theorem label_sort :
  map label_name (sort sorter Sample.labels) = ["project3"; "v1.2.0"; "zzz"] /\
  labels_cell Sample.earlier_pull = "project3, v1.2.0, zzz" /\
  (forall x y, is_project x = true -> sorter x y = -1) /\
  (forall x y, is_project x = false -> is_project y = true -> sorter x y = 1) /\
  (forall x y, is_project x = false -> is_project y = false ->
               is_tag x = true -> sorter x y = -1) /\
  (forall x y, is_project x = false -> is_project y = false ->
               is_tag x = false -> is_tag y = true -> sorter x y = 1) /\
  (forall x y, is_project x = false -> is_project y = false ->
               is_tag x = false -> is_tag y = false ->
               (label_name x <> label_name y -> sorter x y = -1 /\ sorter y x = -1) /\
               (label_name x = label_name y -> sorter x y = 0)).
Proof.
  unfold is_project, is_tag, sorter. split; [reflexivity|]. split; [reflexivity|].
  split; [intros x y ->; reflexivity|].
  split; [intros x y -> ->; reflexivity|].
  split; [intros x y -> -> ->; reflexivity|].
  split; [intros x y -> -> -> ->; reflexivity|].
  intros x y -> -> -> ->. split.
  - intros Hne. split.
    + destruct (string_ltb_total _ _ Hne) as [-> | ->]; [reflexivity|].
      now destruct (String.ltb (label_name x) (label_name y)).
    + destruct (string_ltb_total _ _ Hne) as [-> | ->]; [|reflexivity].
      now destruct (String.ltb (label_name y) (label_name x)).
  - intros ->. now rewrite string_ltb_irrefl.
Qed.

Lemma label_sort_witness :
  sorter {| label_name := "beta" |} {| label_name := "alpha" |} = -1 /\
  sorter {| label_name := "alpha" |} {| label_name := "beta" |} = -1.
Proof.
  apply label_sort; try reflexivity. discriminate.
Defined.

(** * Further properties of the code *)

(** ** Review type and reference *)

(** X1. The review type is read off the first character alone, whatever
    its case: s gives Synchronous, a gives Asynchronous; the empty text and
    any other first character are rejected, each with its own message, and
    [parseProject] then throws that error without looking at the
    reference. *)
Theorem review_type_first_letter ctx c rest ref :
  (c = "s"%char \/ c = "S"%char -> checkRequestType (String c rest) = Return "Synchronous") /\
  (c = "a"%char \/ c = "A"%char -> checkRequestType (String c rest) = Return "Asynchronous") /\
  (c <> "s"%char -> c <> "S"%char -> c <> "a"%char -> c <> "A"%char ->
     parseProject ctx (String c rest) ref =
     Throw (Error ("The value " +:+ dq +:+ String c rest +:+ dq +:+
                   " is not a valid code review type. " +:+ usage))) /\
  parseProject ctx EmptyString ref =
    Throw (Error ("Missing required review request type. " +:+ usage)).
Proof.
  split; [intros [-> | ->]; reflexivity|].
  split; [intros [-> | ->]; reflexivity|].
  split; [|reflexivity].
  intros Hs HS Ha HA. unfold parseProject, checkRequestType.
  apply Ascii.eqb_neq in Hs, HS, Ha, HA. now rewrite Hs, HS, Ha, HA.
Qed.

Lemma review_type_first_letter_witness :
  parseProject {| ctx_owner := "student"; ctx_repo := "project" |} "both" "v2.3.1" =
  Throw (Error ("The value " +:+ dq +:+ "both" +:+ dq +:+
                " is not a valid code review type. " +:+ usage)).
Proof.
  apply (proj1 (proj2 (proj2 (review_type_first_letter _ "b" "oth" "v2.3.1"))));
    discriminate.
Defined.

Lemma project_digit_value p :
  is_project_digit p = true ->
  exists n, to_Number (String p EmptyString) = Finite n /\ (1 <= n <= 4)%N.
Proof.
  destruct p as [[] [] [] [] [] [] [] []]; try discriminate; intros _;
    eexists; (split; [vm_compute; reflexivity | lia]).
Qed.

(** X2. Whatever [parseProject] returns was read off the last segment of
    the reference: the version is that segment and has the form
    [v<1-4>.<int>.<int>], the project number lies between 1 and 4, the type
    is one of the two review types, and the repositories are those of the
    context. *)
Theorem parseProject_details ctx ty ref d :
  parseProject ctx ty ref = Return d ->
  last_segment ref (version d) /\ version_form (version d) /\
  (exists n, project d = Finite n /\ (1 <= n <= 4)%N) /\
  (type d = "Synchronous" \/ type d = "Asynchronous") /\
  owner d = ctx_owner ctx /\
  mainRepo d = ctx_owner ctx +:+ "/" +:+ ctx_repo ctx /\
  testRepo d = ctx_owner ctx +:+ "/" +:+ "project-tests".
Proof.
  destruct (last_segment_exists ref) as [v Hseg].
  rewrite (parseProject_last_segment ctx ty ref v Hseg).
  destruct (checkRequestType ty) as [t|e] eqn:Hty; [|discriminate].
  destruct (match_version v) as [[[m1 m2] m3]|] eqn:Hm; [|discriminate].
  intros [= <-]. cbn [version project type owner mainRepo testRepo].
  assert (Hform : version_form v) by (apply match_version_form; eauto).
  apply match_version_Some in Hm as (p & -> & _ & Hp & _).
  split; [exact Hseg|]. split; [exact Hform|].
  split; [now apply project_digit_value|].
  split; [|repeat split].
  unfold checkRequestType in Hty. destruct ty as [|c rest]; [discriminate|].
  destruct (Ascii.eqb c "s" || Ascii.eqb c "S")%bool; [left; congruence|].
  destruct (Ascii.eqb c "a" || Ascii.eqb c "A")%bool; [right; congruence|discriminate].
Qed.

Lemma parseProject_details_witness :
  last_segment "refs/tags/v3.10.2" "v3.10.2" /\ version_form "v3.10.2".
Proof.
  pose proof (parseProject_details {| ctx_owner := "student"; ctx_repo := "project" |}
                "async" "refs/tags/v3.10.2" _ eq_refl) as H.
  exact (conj (proj1 H) (proj1 (proj2 H))).
Defined.

(** ** Commands *)

(** X3. [checkExec] runs its command exactly once and leaves the warning
    count alone. With an error text it returns only the exit code 0 and
    turns any other code into an error that carries the text and the code;
    without one it returns whatever code the command gave. *)
Theorem checkExec_contract w command s st :
  let outcome := exec w (trace st) command (default [] (param s)) (chdir s) in
  let out := checkExec w command s st in
  events_of (checkExec w command s) st =
    [Run command (default [] (param s)) (chdir s) outcome] /\
  warnings out.2 = warnings st /\
  (forall code, out.1 = Return code ->
     outcome = Return code /\ (is_Some (error s) -> code = 0)) /\
  (forall code, error s = None -> outcome = Return code -> out.1 = Return code) /\
  (forall text code, error s = Some text -> outcome = Return code -> code <> 0 ->
     out.1 = Throw (Error (text +:+ " (" +:+ string_of_Z code +:+ ")."))).
Proof.
  unfold events_of, checkExec. cbv zeta.
  destruct (exec w (trace st) command (default [] (param s)) (chdir s)) as [result|e];
    [destruct (error s) as [text|]; [destruct (Z.eqb_spec result 0)|]|];
    cbn [negb fst snd trace warnings]; rewrite events_of_app.
  all: repeat split; try reflexivity; try congruence.
  all: try (intros code [= <-]; split; [reflexivity|]; try reflexivity).
  all: try (now intros [x Hx]).
  all: try (intros; congruence).
Qed.

Lemma checkExec_contract_witness :
  (checkExec Sample.ahead "git"
     {| param := Some ["diff"; "--exit-code"]; title := None;
        error := Some "Diverged"; chdir := None |} initial).1 =
  Throw (Error "Diverged (1).").
Proof.
  apply (proj2 (proj2 (proj2 (proj2 (checkExec_contract Sample.ahead "git"
           {| param := Some ["diff"; "--exit-code"]; title := None;
              error := Some "Diverged"; chdir := None |} initial)))) "Diverged" 1);
    [reflexivity | reflexivity | discriminate].
Defined.

(** ** Release verification *)

(** Closes a goal [e ∉ l] for a given list of other events. *)
Ltac not_listed :=
  let H := fresh "Hin" in
  intros H; repeat (apply elem_of_cons in H as [H|H]; [discriminate H|]);
  now apply elem_of_nil in H.

(** X4. A release that [verifyRelease] accepts was found with status 200,
    and the run it reports is the first listed run on the release's branch;
    that run is completed and concluded with success. *)
Theorem verifyRelease_success w ctx release st v :
  (verifyRelease w ctx release st).1 = Return v ->
  repos_getReleaseByTag w ctx release = Resolved {| status := 200; data := v_release v |} /\
  (exists before rest,
     actions_listWorkflowRuns w ctx =
       Resolved {| status := 200; data := before ++ v_workflow v :: rest |} /\
     forall r, r ∈ before -> run_head_branch r <> Some release) /\
  run_head_branch (v_workflow v) = Some release /\
  run_status (v_workflow v) = "completed" /\
  run_conclusion (v_workflow v) = Some "success".
Proof.
  unfold verifyRelease.
  cbv beta iota zeta delta [bind try_catch await emit info dump ret throw].
  destruct (repos_getReleaseByTag w ctx release) as [[s rel]|e]; [|discriminate].
  cbn [status data]. destruct (Z.eqb_spec s 200) as [->|]; [|discriminate].
  cbn [negb]. destruct (actions_listWorkflowRuns w ctx) as [[s runs]|e]; [|discriminate].
  cbn [status data]. destruct (Z.eqb_spec s 200) as [->|]; [|discriminate].
  cbn [negb]. destruct (List.find (on_branch release) runs) as [found|] eqn:Hfind;
    [|discriminate].
  destruct (not_successful found) eqn:Hok; [discriminate|].
  cbn [fst]. intros [= <-]. cbn [v_release v_workflow].
  apply find_first in Hfind as (before & rest & -> & Hbefore & Hfound).
  assert (Hbranch : forall r, on_branch release r = true <-> run_head_branch r = Some release).
  { intros r. unfold on_branch, same_text.
    destruct (run_head_branch r) as [b|]; [|split; discriminate].
    rewrite String.eqb_eq. split; congruence. }
  split; [reflexivity|]. split.
  - exists before, rest. split; [reflexivity|].
    intros r Hr Hb. apply Hbranch in Hb. rewrite (Hbefore r Hr) in Hb. discriminate.
  - split; [now apply Hbranch|].
    unfold not_successful, same_text in Hok.
    apply orb_false_iff in Hok as [Hs Hc].
    apply negb_false_iff in Hs, Hc. apply String.eqb_eq in Hs.
    destruct (run_conclusion found) as [c|]; [|discriminate].
    apply String.eqb_eq in Hc. now subst.
Qed.

Lemma verifyRelease_success_witness :
  run_status Sample.push_run = "completed" /\
  run_conclusion Sample.push_run = Some "success".
Proof.
  pose proof (verifyRelease_success Sample.failed_tests Sample.student "v1.0.0" initial
                {| v_release := Sample.release_v100; v_workflow := Sample.push_run |}
                eq_refl) as H.
  exact (proj2 (proj2 (proj2 H))).
Defined.

(** X5. Every failure of [verifyRelease] is an Error that names the
    release and carries the cause in lower case: either the release could
    not be fetched, and then the workflow runs are never listed, or it
    could not be verified. *)
Theorem verifyRelease_failure w ctx release st e :
  (verifyRelease w ctx release st).1 = Throw e ->
  (exists cause,
     e = Error ("Unable to fetch release " +:+ release +:+ " (" +:+
                toLowerCase cause +:+ ").") /\
     Request "actions.listWorkflowRuns" ∉ events_of (verifyRelease w ctx release) st) \/
  (exists cause,
     e = Error ("Unable to verify release " +:+ release +:+ " (" +:+
                toLowerCase cause +:+ ").")).
Proof.
  unfold events_of, verifyRelease.
  cbv beta iota zeta delta [bind try_catch await emit info dump ret throw].
  destruct (repos_getReleaseByTag w ctx release) as [[s rel]|e0].
  - cbn [status data]. destruct (Z.eqb_spec s 200) as [->|].
    + cbn [negb]. destruct (actions_listWorkflowRuns w ctx) as [[s runs]|e1].
      * cbn [status data]. destruct (Z.eqb_spec s 200) as [->|]; cbn [negb].
        -- destruct (List.find (on_branch release) runs) as [found|].
           ++ destruct (not_successful found); [|discriminate].
              cbn [fst]. intros [= <-]. right.
              now exists ("run #" +:+ string_of_Z (run_number found) +:+ " id " +:+
                          string_of_Z (run_id found) +:+ " not successful").
           ++ cbn [fst]. intros [= <-]. right. now exists "workflow run not found".
        -- cbn [fst]. intros [= <-]. right. now exists (string_of_Z s +:+ " exit code").
      * cbn [fst]. intros [= <-]. right. now exists (message e1).
    + cbn [negb fst snd trace]. intros [= <-]. left.
      exists (string_of_Z s +:+ " exit code"). split; [reflexivity|].
      rewrite <- app_assoc, events_of_app. not_listed.
  - cbn [fst snd trace]. intros [= <-]. left. exists (message e0). split; [reflexivity|].
    rewrite events_of_app. not_listed.
Qed.

Lemma verifyRelease_failure_witness :
  (exists cause,
     Error "Unable to fetch release v1.0.0 (500 exit code)." =
     Error ("Unable to fetch release " +:+ "v1.0.0" +:+ " (" +:+ toLowerCase cause +:+ ").") /\
     Request "actions.listWorkflowRuns" ∉
       events_of (verifyRelease Sample.outage Sample.student "v1.0.0") initial) \/
  (exists cause,
     Error "Unable to fetch release v1.0.0 (500 exit code)." =
     Error ("Unable to verify release " +:+ "v1.0.0" +:+ " (" +:+ toLowerCase cause +:+ ").")).
Proof.
  apply (verifyRelease_failure Sample.outage Sample.student "v1.0.0" initial). reflexivity.
Defined.

(** ** Milestones and earlier pull requests *)

Lemma filter_sublist {A} (p : A -> bool) (l : list A) : List.filter p l `sublist_of` l.
Proof.
  induction l as [|x l IH]; cbn [List.filter]; [constructor|].
  destruct (p x); now constructor.
Qed.

Lemma has_project_label_spec project x :
  has_project_label project x = true <->
  exists labels y, pull_labels x = Some labels /\ y ∈ labels /\
                   label_name y = "project" +:+ project.
Proof.
  unfold has_project_label. destruct (pull_labels x) as [labels|].
  - rewrite existsb_exists. split.
    + intros (y & Hy & Heq). apply String.eqb_eq in Heq.
      exists labels, y. now rewrite list_elem_of_In.
    + intros (labels' & y & [= <-] & Hy & Heq). exists y.
      rewrite <- list_elem_of_In. split; [exact Hy | now apply String.eqb_eq].
  - split; [discriminate|]. now intros (labels & y & H & _).
Qed.

(** X6. When the listing answers 200, [getPullRequests] returns, in the
    order of the listing, exactly the pull requests that carry a label
    named project followed by the project number; a pull request without
    labels is dropped, and no warning is counted. *)
Theorem getPullRequests_keeps_project_pulls w ctx project st listing :
  pulls_list w ctx = Resolved {| status := 200; data := listing |} ->
  exists found,
    getPullRequests w ctx project st = (Return found, after st (Request "pulls.list")) /\
    found `sublist_of` listing /\
    forall x, x ∈ found <->
      x ∈ listing /\
      exists labels y, pull_labels x = Some labels /\ y ∈ labels /\
                       label_name y = "project" +:+ project.
Proof.
  intros H. exists (List.filter (has_project_label project) listing).
  split; [unfold getPullRequests; rewrite H; reflexivity|].
  split; [apply filter_sublist|].
  intros x. rewrite list_elem_of_In, filter_In, <- list_elem_of_In.
  now rewrite has_project_label_spec.
Qed.

Lemma getPullRequests_keeps_project_pulls_witness :
  exists found,
    getPullRequests
      (Sample.listing_forge Sample.unreachable
         (Resolved {| status := 200; data := [Sample.earlier_pull] |}))
      Sample.student "3" initial = (Return found, after initial (Request "pulls.list")) /\
    found `sublist_of` [Sample.earlier_pull] /\
    forall x, x ∈ found <->
      x ∈ [Sample.earlier_pull] /\
      exists labels y, pull_labels x = Some labels /\ y ∈ labels /\
                       label_name y = "project" +:+ "3".
Proof.
  apply getPullRequests_keeps_project_pulls. reflexivity.
Defined.

(** X7. With the milestones listed, [getMilestone] returns the first one
    titled Project followed by the project text and creates nothing; only
    when no milestone has that title does it ask for one, described by
    what the names object answers for the project text ([projectName]: the
    project's name for 1 to 4), and return it once created. *)
Theorem getMilestone_creates_only_when_missing w ctx project st listing :
  issues_listMilestones w ctx = Resolved {| status := 200; data := listing |} ->
  (forall before m rest,
     listing = before ++ m :: rest ->
     (forall x, x ∈ before -> ms_title x <> "Project " +:+ project) ->
     ms_title m = "Project " +:+ project ->
     getMilestone w ctx project st =
       (Return m, after st (Request "issues.listMilestones"))) /\
  ((forall x, x ∈ listing -> ms_title x <> "Project " +:+ project) ->
   forall m,
     issues_createMilestone w ctx ("Project " +:+ project)
         ("Project " +:+ project +:+ " " +:+ projectName project)
       = Resolved {| status := 201; data := m |} ->
     getMilestone w ctx project st =
       (Return m, after (after st (Request "issues.listMilestones"))
                        (Request "issues.createMilestone"))).
Proof.
  intros Hlist. split.
  - intros before m rest Hl Hbefore Hm.
    assert (Hfind : List.find (fun x => String.eqb (ms_title x) ("Project " +:+ project))
                      listing = Some m).
    { apply find_first. exists before, rest. split; [exact Hl|]. split.
      - intros x Hx. apply String.eqb_neq. now apply Hbefore.
      - now apply String.eqb_eq. }
    unfold getMilestone. rewrite Hlist.
    cbv beta iota zeta delta [bind await emit dump ret throw status data].
    change (negb (200 =? 200)) with false. cbv beta iota. now rewrite Hfind.
  - intros Hnone m Hcreate.
    assert (Hfind : List.find (fun x => String.eqb (ms_title x) ("Project " +:+ project))
                      listing = None).
    { apply find_nothing. intros x Hx. apply String.eqb_neq. now apply Hnone. }
    unfold getMilestone. rewrite Hlist.
    cbv beta iota zeta delta [bind await emit dump ret throw status data].
    change (negb (200 =? 200)) with false. cbv beta iota. rewrite Hfind, Hcreate.
    reflexivity.
Qed.

Lemma getMilestone_creates_only_when_missing_witness :
  getMilestone
    (Sample.listing_forge
       (Resolved {| status := 200; data := [Sample.project2_milestone] |})
       Sample.unreachable)
    Sample.student "2" initial =
  (Return Sample.project2_milestone, after initial (Request "issues.listMilestones")).
Proof.
  apply (proj1 (getMilestone_creates_only_when_missing
                  (Sample.listing_forge
                     (Resolved {| status := 200; data := [Sample.project2_milestone] |})
                     Sample.unreachable)
                  Sample.student "2" initial
                  [Sample.project2_milestone] eq_refl) [] Sample.project2_milestone []).
  - reflexivity.
  - intros x Hx. now apply elem_of_nil in Hx.
  - reflexivity.
Defined.

(** What the names object answers: one of its four names, a member of
    [Object.prototype] as the engine prints it, or undefined. *)
Example projectName_answers :
  projectName "2" = "Partial Search" /\
  projectName "5" = "undefined" /\
  projectName "toString" = "function toString() { [native code] }" /\
  projectName "constructor" = "function Object() { [native code] }" /\
  projectName "__proto__" = "[object Object]".
Proof. repeat split. Qed.

(** ** The saved states, once more *)

(** X8. Whatever the store holds, [restoreStates] reads the names listed
    under keys and nothing else: a listed name that was never saved comes
    back as the empty text, and a name of the given object that is not
    listed keeps its value. The one listed name that is not always
    assigned is [__proto__]: an object without such a property of its own
    stays without it. *)
Theorem restoreStates_reads_listed_keys (saved given : gmap string string) ks :
  saved !! "keys" = Some (JSON.stringify ks) ->
  exists m,
    restoreStates saved given = Return m /\
    (forall k, k ∈ ks -> k <> "__proto__" \/ is_Some (given !! k) ->
               m !! k = Some (default EmptyString (saved !! k))) /\
    (forall k, k ∉ ks -> m !! k = given !! k) /\
    (given !! "__proto__" = None -> m !! "__proto__" = None).
Proof.
  intros H. exists (restore_each ks saved given). split.
  - unfold restoreStates, getState. rewrite H. cbn [default from_option id].
    destruct (JSON.stringify ks) as [|c text] eqn:Hs; [discriminate Hs|].
    now rewrite <- Hs, parse_stringify.
  - split; [|split].
    + intros k Hk Hown. rewrite restore_each_lookup. now rewrite decide_True.
    + intros k Hk. rewrite restore_each_lookup. rewrite decide_False; [reflexivity|].
      intros [? _]; contradiction.
    + intros Hnone. rewrite restore_each_lookup. rewrite decide_False; [exact Hnone|].
      rewrite Hnone. intros [_ [Hne|[? Hsome]]]; [now apply Hne | discriminate Hsome].
Qed.

Lemma restoreStates_reads_listed_keys_witness :
  exists m,
    restoreStates {[ "keys" := JSON.stringify ["branch"; "__proto__"] ]} ∅ = Return m /\
    (forall k, k ∈ ["branch"; "__proto__"] ->
       k <> "__proto__" \/ is_Some ((∅ : gmap string string) !! k) ->
       m !! k = Some (default EmptyString
                        (({[ "keys" := JSON.stringify ["branch"; "__proto__"] ]}
                            : gmap string string) !! k))) /\
    (forall k, k ∉ ["branch"; "__proto__"] -> m !! k = (∅ : gmap string string) !! k) /\
    ((∅ : gmap string string) !! "__proto__" = None -> m !! "__proto__" = None).
Proof.
  apply restoreStates_reads_listed_keys. reflexivity.
Defined.

(** X9. Restoring into an object that already has properties merges: every
    saved state overwrites the property of its name, and the other
    properties stay. A saved state named [__proto__] overwrites such a
    property where the object has one, and is dropped where it has none. *)
Theorem restoreStates_merges (states saved given : gmap string string) :
  states !! "keys" = None ->
  exists m,
    restoreStates (saveStates states saved) given = Return m /\
    (forall k v, states !! k = Some v ->
                 k <> "__proto__" \/ is_Some (given !! k) -> m !! k = Some v) /\
    (forall k, states !! k = None -> m !! k = given !! k) /\
    (given !! "__proto__" = None -> m !! "__proto__" = None).
Proof.
  intros H. eexists. split; [now apply restore_saved|].
  destruct (decide (is_Some (given !! "__proto__"))) as [Hown|Hnone].
  - split; [|split].
    + intros k v Hk _. now apply lookup_union_Some_l.
    + intros k Hk. now apply lookup_union_r.
    + intros Hg. rewrite Hg in Hown. destruct Hown as [? Hown]. discriminate Hown.
  - split; [|split].
    + intros k v Hk Hset. apply lookup_union_Some_l.
      rewrite lookup_delete_ne; [exact Hk|].
      intros <-. destruct Hset as [Hne|Hsome]; [now apply Hne | now apply Hnone].
    + intros k Hk. apply lookup_union_r.
      destruct (decide (k = "__proto__")) as [->|Hne];
        [apply lookup_delete_eq | now rewrite lookup_delete_ne].
    + intros Hg. rewrite lookup_union_r by apply lookup_delete_eq. exact Hg.
Qed.

Lemma restoreStates_merges_witness :
  exists m,
    restoreStates (saveStates {[ "branch" := "review/v2.3.1" ]} ∅)
                  {[ "branch" := "old"; "extra" := "kept" ]} = Return m /\
    (forall k v, ({[ "branch" := "review/v2.3.1" ]} : gmap string string) !! k = Some v ->
                 k <> "__proto__" \/
                 is_Some (({[ "branch" := "old"; "extra" := "kept" ]} : gmap string string) !! k) ->
                 m !! k = Some v) /\
    (forall k, ({[ "branch" := "review/v2.3.1" ]} : gmap string string) !! k = None ->
               m !! k = ({[ "branch" := "old"; "extra" := "kept" ]} : gmap string string) !! k) /\
    (({[ "branch" := "old"; "extra" := "kept" ]} : gmap string string) !! "__proto__" = None ->
     m !! "__proto__" = None).
Proof.
  apply restoreStates_merges. reflexivity.
Defined.

(** ** Warnings *)

Lemma keeps_ret {A} (a : A) : keeps_warnings (ret a).
Proof. intros st. reflexivity. Qed.

Lemma keeps_throw {A} e : keeps_warnings (@throw A e).
Proof. intros st. reflexivity. Qed.

Lemma keeps_emit e : keeps_warnings (emit e).
Proof. intros st. reflexivity. Qed.

Lemma keeps_bind {A B} (m : M A) (k : A -> M B) :
  keeps_warnings m -> (forall a, keeps_warnings (k a)) -> keeps_warnings (bind m k).
Proof.
  intros Hm Hk st. unfold bind. specialize (Hm st).
  destruct (m st) as [[a|e] st']; cbn [snd] in *; [|exact Hm].
  now rewrite Hk.
Qed.

Lemma keeps_try_catch {A} (m : M A) (h : exception -> M A) :
  keeps_warnings m -> (forall e, keeps_warnings (h e)) -> keeps_warnings (try_catch m h).
Proof.
  intros Hm Hh st. unfold try_catch. specialize (Hm st).
  destruct (m st) as [[a|e] st']; cbn [snd] in *; [exact Hm|].
  now rewrite Hh.
Qed.

Lemma keeps_await {D} endpoint (r : reply D) : keeps_warnings (await endpoint r).
Proof.
  unfold await. apply keeps_bind; [apply keeps_emit|].
  intros _. destruct r; [apply keeps_ret | apply keeps_throw].
Qed.

Lemma keeps_checkExec w command s : keeps_warnings (checkExec w command s).
Proof.
  intros st. unfold checkExec. cbv zeta.
  destruct (exec w (trace st) command (default [] (param s)) (chdir s)) as [code|e];
    [|reflexivity].
  destruct (error s); [destruct (negb (code =? 0))|]; reflexivity.
Qed.

(** Walks through a sequence, one step at a time. *)
Ltac keeps :=
  repeat first
    [ apply keeps_ret | apply keeps_throw | apply keeps_emit | apply keeps_await
    | apply keeps_checkExec
    | apply keeps_bind | apply keeps_try_catch
    | progress intros
    | match goal with
      | |- keeps_warnings (if ?b then _ else _) => destruct b
      | |- keeps_warnings (match ?x with _ => _ end) => destruct x
      end ].

Lemma keeps_getIssues w ctx project type : keeps_warnings (getIssues w ctx project type).
Proof. unfold getIssues, dump. keeps. Qed.

(** X10. Of all the helpers only the pull request listing counts a
    warning, and only when it is answered by 404: the release verifier,
    the issue listing and gatekeeper, the milestone helper, the cloner and
    the branch preparer leave the count as it is. *)
Theorem only_missing_pulls_warn w ctx token project release st :
  warnings (verifyRelease w ctx release st).2 = warnings st /\
  warnings (checkIssues w ctx project st).2 = warnings st /\
  warnings (getMilestone w ctx project st).2 = warnings st /\
  warnings (cloneProject w token ctx release st).2 = warnings st /\
  warnings (prepareBranch w token ctx release st).2 = warnings st /\
  warnings (getPullRequests w ctx project st).2 =
    match pulls_list w ctx with
    | Resolved r => if status r =? 404 then S (warnings st) else warnings st
    | Rejected _ => warnings st
    end.
Proof.
  split; [|split; [|split; [|split; [|split]]]].
  - revert st. change (keeps_warnings (verifyRelease w ctx release)).
    unfold verifyRelease, info, dump. keeps.
  - revert st. change (keeps_warnings (checkIssues w ctx project)).
    unfold checkIssues, dump. keeps; apply keeps_getIssues.
  - revert st. change (keeps_warnings (getMilestone w ctx project)).
    unfold getMilestone, dump. keeps.
  - revert st. change (keeps_warnings (cloneProject w token ctx release)).
    unfold cloneProject. keeps.
  - revert st. change (keeps_warnings (prepareBranch w token ctx release)).
    unfold prepareBranch. keeps.
  - unfold getPullRequests.
    cbv beta iota zeta delta [bind await emit dump showWarning ret throw].
    destruct (pulls_list w ctx) as [[s l]|e]; [|reflexivity].
    cbn [status data]. destruct (s =? 404); [reflexivity|].
    destruct (negb (s =? 200)); reflexivity.
Qed.

(** X11. A phase ends without a warning notice exactly when nothing was
    counted; a single missing pull request listing is reported in the
    singular. *)
Theorem missing_pulls_reported w ctx project st phase l :
  (forall count, checkWarnings count phase = None <-> count = O) /\
  (pulls_list w ctx = Resolved {| status := 404; data := l |} ->
   warnings st = O ->
   checkWarnings (warnings (getPullRequests w ctx project st).2) phase =
     Some ("There was 1 warning in the " +:+ phase +:+
           " phase. View the run log for details.")).
Proof.
  split.
  - intros count. unfold checkWarnings.
    destruct count as [|[|count]]; cbn [Nat.ltb Nat.leb Nat.eqb];
      split; intros H; (reflexivity || discriminate H).
  - intros H Hst. unfold getPullRequests. rewrite H.
    cbv beta iota zeta delta [bind await emit dump showWarning ret throw status data].
    cbn [Z.eqb Pos.eqb snd warnings]. now rewrite Hst.
Qed.

Lemma missing_pulls_reported_witness :
  checkWarnings (warnings (getPullRequests Sample.no_pulls Sample.student "2" initial).2)
                "Request Review" =
  Some ("There was 1 warning in the " +:+ "Request Review" +:+
        " phase. View the run log for details.").
Proof.
  apply (proj2 (missing_pulls_reported Sample.no_pulls Sample.student "2" initial
                  "Request Review" [])); reflexivity.
Defined.

(** ** The gatekeeper's verdicts *)

(** X12. The gatekeeper stops at the first listing that decides. Without an
    approved functionality issue it throws after one request, whatever the
    other listings hold; otherwise an approved design issue is fatal after
    two requests and is named by the number of the first one; otherwise the
    first open pull request, the synchronous listing going first, is
    fatal. *)
Theorem checkIssues_error_precedence w ctx project st funs :
  issues_listForRepo w ctx ("project" +:+ project +:+ ",functionality")
    = Resolved {| status := 200; data := funs |} ->
  ((forall x, x ∈ funs -> approved x = false) ->
     checkIssues w ctx project st =
       (Throw (Error ("Unable to detect approved functionality issue for project " +:+
                      project +:+
                      ". You must pass functionality before requesting code review.")),
        after st (Request "issues.listForRepo"))) /\
  (forall f des, f ∈ funs -> approved f = true ->
     issues_listForRepo w ctx ("project" +:+ project +:+ ",design")
       = Resolved {| status := 200; data := des |} ->
     (forall before d rest,
        des = before ++ d :: rest ->
        (forall x, x ∈ before -> approved x = false) ->
        approved d = true ->
        checkIssues w ctx project st =
          (Throw (Error ("Detected approved design issue #" +:+
                         string_of_Z (issue_number d) +:+ " for project " +:+
                         project +:+ ". Additional code reviews are not necessary.")),
           after (after st (Request "issues.listForRepo"))
                 (Request "issues.listForRepo"))) /\
     (forall sync async before p rest,
        (forall x, x ∈ des -> approved x = false) ->
        issues_listForRepo w ctx ("project" +:+ project +:+ ",synchronous")
          = Resolved {| status := 200; data := sync |} ->
        issues_listForRepo w ctx ("project" +:+ project +:+ ",asynchronous")
          = Resolved {| status := 200; data := async |} ->
        sync ++ async = before ++ p :: rest ->
        (forall x, x ∈ before -> open_pull x = false) ->
        open_pull p = true ->
        (checkIssues w ctx project st).1 =
          Throw (Error ("Detected open pull request #" +:+
                        string_of_Z (issue_number p) +:+ " for project " +:+
                        project +:+
                        ". Please merge or close old pull requests before requesting code review.")))).
Proof.
  intros Hfun. split.
  - intros Hnone. apply (proj2 (find_nothing approved funs)) in Hnone.
    unfold checkIssues, bind.
    rewrite (getIssues_resolved w ctx project "functionality" st funs Hfun).
    now rewrite Hnone.
  - intros f des Hf Happ Hdes.
    assert (Hsome : exists f', List.find approved funs = Some f').
    { destruct (List.find approved funs) as [f'|] eqn:E; [eauto|].
      rewrite (proj1 (find_nothing approved funs) E f Hf) in Happ. discriminate. }
    destruct Hsome as [f' Hf'].
    split.
    + intros before d rest Hl Hb Hd.
      assert (Hfind : List.find approved des = Some d)
        by (apply find_first; eauto).
      unfold checkIssues, bind.
      rewrite (getIssues_resolved w ctx project "functionality" st funs Hfun), Hf'.
      rewrite (getIssues_resolved w ctx project "design" _ des Hdes), Hfind.
      reflexivity.
    + intros sync async before p rest Hnone Hsync Hasync Hl Hb Hp.
      apply (proj2 (find_nothing approved des)) in Hnone.
      assert (Hfind : List.find open_pull (sync ++ async) = Some p)
        by (apply find_first; eauto).
      unfold checkIssues, bind.
      rewrite (getIssues_resolved w ctx project "functionality" st funs Hfun), Hf'.
      rewrite (getIssues_resolved w ctx project "design" _ des Hdes), Hnone.
      rewrite (getIssues_resolved w ctx project "synchronous" _ sync Hsync).
      rewrite (getIssues_resolved w ctx project "asynchronous" _ async Hasync).
      now rewrite Hfind.
Qed.

Lemma checkIssues_error_precedence_witness :
  checkIssues Sample.design_done Sample.student "2" initial =
  (Throw (Error ("Detected approved design issue #" +:+ string_of_Z 9 +:+
                 " for project " +:+ "2" +:+
                 ". Additional code reviews are not necessary.")),
   after (after initial (Request "issues.listForRepo")) (Request "issues.listForRepo")).
Proof.
  apply (proj1 (proj2 (checkIssues_error_precedence Sample.design_done Sample.student "2"
                         initial Sample.two_approvals eq_refl)
                  (Sample.approved_issue 3 "https://github.com/student/project/issues/3")
                  [Sample.approved_issue 9 "https://github.com/student/project/issues/9"]
                  ltac:(apply list_elem_of_here) eq_refl eq_refl)
           [] (Sample.approved_issue 9 "https://github.com/student/project/issues/9") []).
  - reflexivity.
  - intros x Hx. now apply elem_of_nil in Hx.
  - reflexivity.
Defined.

(** ** Cloning and the review branch *)

(** X13. [cloneProject] clones the default branch at depth 1 without tags
    and then lists the main sources; the release it is given plays no part
    in its commands. A clone that exits with another code than 0 is fatal
    and the listing is not run; when [cloneProject] returns, both commands
    have exited with 0. *)
Theorem cloneProject_outcome w token ctx release st :
  let clone := ["clone"; "--depth"; "1"; "--no-tags";
                "https://github-actions:" +:+ token +:+ "@github.com/" +:+
                  ctx_owner ctx +:+ "/" +:+ ctx_repo ctx;
                "project-main"] in
  (forall other, cloneProject w token ctx other st = cloneProject w token ctx release st) /\
  (forall code, exec w (trace st) "git" clone None = Return code -> code <> 0 ->
     cloneProject w token ctx release st =
       (Throw (Error (("Failed cloning " +:+ ctx_repo ctx +:+ " repository") +:+
                      " (" +:+ string_of_Z code +:+ ").")),
        after st (ran "git" clone None code))) /\
  ((cloneProject w token ctx release st).1 = Return tt ->
     events_of (cloneProject w token ctx release) st =
       [ran "git" clone None 0;
        ran "ls" ["-m"; "project-main/src/main/java"] None 0]).
Proof.
  cbv zeta. split; [reflexivity|]. split.
  - intros code Hclone Hne. unfold cloneProject. unfold_sequence. unfold mainDir.
    rewrite Hclone. destruct (Z.eqb_spec code 0); [contradiction | reflexivity].
  - unfold cloneProject. unfold_sequence. unfold ran, mainDir. split_exec.
    all: cbn [fst]; intros H; try discriminate H.
    now normalise_events.
Qed.

Lemma cloneProject_outcome_witness :
  events_of (cloneProject Sample.calm "token" Sample.student "v2.3.1") initial =
  [ran "git" ["clone"; "--depth"; "1"; "--no-tags";
              "https://github-actions:" +:+ "token" +:+ "@github.com/" +:+
                ctx_owner Sample.student +:+ "/" +:+ ctx_repo Sample.student;
              "project-main"] None 0;
   ran "ls" ["-m"; "project-main/src/main/java"] None 0].
Proof.
  apply (proj2 (proj2 (cloneProject_outcome Sample.calm "token" Sample.student "v2.3.1"
                         initial))).
  reflexivity.
Defined.

(** X14. When [prepareBranch] returns, exactly six git commands ran in the
    working copy, in this order and each with exit code 0: the fetch of
    history and tags, the two comparisons with the main branch, the two
    settings of the committer, and the checkout of the review branch. *)
Theorem prepareBranch_success_trace w token ctx release st branch :
  (prepareBranch w token ctx release st).1 = Return branch ->
  events_of (prepareBranch w token ctx release) st =
    [ran "git" ["fetch"; "--unshallow"; "--tags"] (Some "project-main") 0;
     ran "git" ["diff"; "--shortstat"; "origin/main"; release] (Some "project-main") 0;
     ran "git" ["diff"; "--exit-code"; "--quiet"; "origin/main"; release]
         (Some "project-main") 0;
     ran "git" ["config"; "user.name"; "github-actions"] (Some "project-main") 0;
     ran "git" ["config"; "user.email"; "github-actions@github.com"] (Some "project-main") 0;
     ran "git" ["checkout"; "-b"; "review/" +:+ release] (Some "project-main") 0].
Proof.
  unfold prepareBranch. unfold_sequence. unfold ran, mainDir. split_exec.
  all: cbn [fst]; intros H; try discriminate H.
  now normalise_events.
Qed.

Lemma prepareBranch_success_trace_witness :
  events_of (prepareBranch Sample.calm "token" Sample.student "v2.3.1") initial =
    [ran "git" ["fetch"; "--unshallow"; "--tags"] (Some "project-main") 0;
     ran "git" ["diff"; "--shortstat"; "origin/main"; "v2.3.1"] (Some "project-main") 0;
     ran "git" ["diff"; "--exit-code"; "--quiet"; "origin/main"; "v2.3.1"]
         (Some "project-main") 0;
     ran "git" ["config"; "user.name"; "github-actions"] (Some "project-main") 0;
     ran "git" ["config"; "user.email"; "github-actions@github.com"] (Some "project-main") 0;
     ran "git" ["checkout"; "-b"; "review/" +:+ "v2.3.1"] (Some "project-main") 0].
Proof.
  apply (prepareBranch_success_trace Sample.calm "token" Sample.student "v2.3.1" initial
           "review/v2.3.1").
  reflexivity.
Defined.

(** ** What a sequence appends to the trace *)

Lemma appends_ret {A} P (a : A) : appends P (ret a).
Proof. intros st. exists []. now rewrite app_nil_r. Qed.

Lemma appends_throw {A} P e : appends P (@throw A e).
Proof. intros st. exists []. now rewrite app_nil_r. Qed.

Lemma appends_pure {A} P (c : completion A) : appends P (fun st => (c, st)).
Proof. intros st. exists []. now rewrite app_nil_r. Qed.

Lemma appends_emit (P : event -> Prop) e : P e -> appends P (emit e).
Proof. intros He st. exists [e]. split; [reflexivity | now constructor]. Qed.

Lemma appends_bind {A B} P (m : M A) (k : A -> M B) :
  appends P m -> (forall a, appends P (k a)) -> appends P (bind m k).
Proof.
  intros Hm Hk st. unfold bind. destruct (Hm st) as (new1 & Ht1 & HP1).
  destruct (m st) as [[a|e] st1]; cbn [snd] in *; [|now exists new1].
  destruct (Hk a st1) as (new2 & Ht2 & HP2). exists (new1 ++ new2).
  rewrite Ht2, Ht1, app_assoc. split; [reflexivity | now apply Forall_app].
Qed.

Lemma appends_try_catch {A} P (m : M A) (h : exception -> M A) :
  appends P m -> (forall e, appends P (h e)) -> appends P (try_catch m h).
Proof.
  intros Hm Hh st. unfold try_catch. destruct (Hm st) as (new1 & Ht1 & HP1).
  destruct (m st) as [[a|e] st1]; cbn [snd] in *; [now exists new1|].
  destruct (Hh e st1) as (new2 & Ht2 & HP2). exists (new1 ++ new2).
  rewrite Ht2, Ht1, app_assoc. split; [reflexivity | now apply Forall_app].
Qed.

Lemma appends_await {D} (P : event -> Prop) endpoint (r : reply D) :
  P (Request endpoint) -> appends P (await endpoint r).
Proof.
  intros HP. unfold await. apply appends_bind; [now apply appends_emit|].
  intros _. destruct r; [apply appends_ret | apply appends_throw].
Qed.

Lemma appends_checkExec (P : event -> Prop) w command s :
  (forall c args dir r, P (Run c args dir r)) -> appends P (checkExec w command s).
Proof.
  intros HP st. unfold checkExec. cbv zeta.
  exists [Run command (default [] (param s)) (chdir s)
              (exec w (trace st) command (default [] (param s)) (chdir s))].
  split; [|now repeat constructor].
  destruct (exec w (trace st) command (default [] (param s)) (chdir s)) as [code|e];
    [|reflexivity].
  destruct (error s); [destruct (negb (code =? 0))|]; reflexivity.
Qed.

(** Walks through a sequence whose steps append events that are not
    subprocesses. *)
Ltac appending :=
  repeat first
    [ apply appends_ret | apply appends_throw | apply appends_pure
    | apply appends_emit; reflexivity | apply appends_await; reflexivity
    | apply appends_checkExec; reflexivity
    | apply appends_bind | apply appends_try_catch
    | progress intros
    | match goal with
      | |- appends _ (if ?b then _ else _) => destruct b
      | |- appends _ (match ?x with _ => _ end) => destruct x
      end ].

Lemma verifyRelease_requests_only w ctx release :
  appends (fun e => is_run e = false) (verifyRelease w ctx release).
Proof. unfold verifyRelease, info, dump. appending. Qed.

Lemma getIssues_requests_only w ctx project type :
  appends (fun e => is_run e = false) (getIssues w ctx project type).
Proof. unfold getIssues, dump. appending. Qed.

Lemma checkIssues_requests_only w ctx project :
  appends (fun e => is_run e = false) (checkIssues w ctx project).
Proof. unfold checkIssues, dump. appending; apply getIssues_requests_only. Qed.

Lemma events_of_appended {A} (m : M A) st new :
  trace (m st).2 = trace st ++ new -> events_of m st = new.
Proof. intros H. unfold events_of. rewrite H. apply events_of_app. Qed.

(** ** The setup sequence *)

(** X15. The setup sequence starts no subprocess, neither the clone nor
    any later git command, before the reference was parsed, the release
    verified and the issues checked: every subprocess in its trace comes
    after these three have returned. *)
Theorem setup_gates_come_first w ctx token ty ref st e :
  e ∈ events_of (Setup.prepare w ctx token ty ref) st ->
  is_run e = true ->
  exists parsed verified st1 issues st2,
    parseProject ctx ty ref = Return parsed /\
    verifyRelease w ctx (version parsed) st = (Return verified, st1) /\
    checkIssues w ctx (string_of_number (project parsed)) st1 = (Return issues, st2).
Proof.
  intros Hin Hrun.
  assert (Hquiet : forall new, Forall (fun e => is_run e = false) new -> e ∈ new -> False).
  { intros new Hall Hnew. rewrite Forall_forall in Hall.
    rewrite (Hall e Hnew) in Hrun. discriminate. }
  unfold Setup.prepare in Hin. unfold bind at 1 in Hin.
  destruct (parseProject ctx ty ref) as [parsed|err].
  2: { rewrite (events_of_appended _ st []) in Hin by now rewrite app_nil_r.
       now apply elem_of_nil in Hin. }
  unfold bind at 1 in Hin.
  destruct (verifyRelease_requests_only w ctx (version parsed) st) as (new1 & Ht1 & Hall1).
  destruct (verifyRelease w ctx (version parsed) st) as [[verified|err] st1] eqn:Hverify;
    cbn [snd] in Ht1.
  2: { rewrite (events_of_appended _ st new1) in Hin by now rewrite Hverify.
       destruct (Hquiet new1 Hall1 Hin). }
  destruct (checkIssues_requests_only w ctx (string_of_number (project parsed)) st1)
    as (new2 & Ht2 & Hall2).
  destruct (checkIssues w ctx (string_of_number (project parsed)) st1)
    as [[issues|err] st2] eqn:Hissues; cbn [snd] in Ht2.
  - now exists parsed, verified, st1, issues, st2.
  - rewrite (events_of_appended _ st (new1 ++ new2)) in Hin.
    + destruct (Hquiet (new1 ++ new2) ltac:(now apply Forall_app) Hin).
    + rewrite Hverify. unfold bind. rewrite Hissues. cbn [snd].
      now rewrite Ht2, Ht1, app_assoc.
Qed.

(** X16. When the setup sequence gets as far as the review branch, the
    branch it records is review/ followed by the last segment of the
    reference it was given, and that segment has the form
    [v<1-4>.<int>.<int>]. *)
Theorem setup_branch_of_reference w ctx token ty ref st s :
  (Setup.prepare w ctx token ty ref st).1 = Return s ->
  exists v,
    last_segment ref v /\ version_form v /\
    version (st_parsed s) = v /\ st_branch s = "review/" +:+ v.
Proof.
  intros H. destruct (last_segment_exists ref) as [v Hseg]. exists v.
  unfold Setup.prepare in H. unfold bind at 1 in H.
  rewrite (parseProject_last_segment ctx ty ref v Hseg) in H.
  destruct (checkRequestType ty) as [t|err]; [|discriminate H].
  destruct (match_version v) as [[[m1 m2] m3]|] eqn:Hm; [|discriminate H].
  assert (Hform : version_form v) by (apply match_version_form; eauto).
  cbn [version project] in H. unfold bind in H.
  destruct (verifyRelease w ctx v st) as [[verified|err] st1]; [|discriminate H].
  destruct (checkIssues w ctx (string_of_number (to_Number m1)) st1)
    as [[issues|err] st2]; [|discriminate H].
  destruct (cloneProject w token ctx v st2) as [[[]|err] st3]; [|discriminate H].
  destruct (prepareBranch w token ctx v st3) as [[branch|err] st4] eqn:Hprep;
    [|discriminate H].
  cbn [ret fst] in H. injection H as <-. cbn [st_parsed st_branch version].
  split; [exact Hseg|]. split; [exact Hform|]. split; [reflexivity|].
  apply (prepareBranch_returns w token ctx v st3). now rewrite Hprep.
Qed.

(** X17. When anything on the way to the review branch throws, the setup
    marks the action as failed with the error's message after the words
    Setup failed, returns normally, and does not run its last step, the
    cache and the saving of the states. *)
Theorem setup_failure_saves_nothing w ctx token ty ref finish st e st' :
  Setup.prepare w ctx token ty ref st = (Throw e, st') ->
  Setup.run w ctx token ty ref finish st =
    (Return tt, after st' (SetFailed ("Setup failed. " +:+ message e))).
Proof.
  intros H. unfold Setup.run, Setup.body, try_catch, bind. now rewrite H.
Qed.

Lemma setup_failure_saves_nothing_witness :
  Setup.run Sample.outage Sample.student "token" "s" "refs/tags/v1.0.0"
            (fun _ => ret tt) initial =
  (Return tt,
   after {| trace := [Request "repos.getReleaseByTag"; Dump "result"]; warnings := 0 |}
         (SetFailed ("Setup failed. " +:+
                     message (Error "Unable to fetch release v1.0.0 (500 exit code).")))).
Proof.
  apply setup_failure_saves_nothing. reflexivity.
Defined.

Lemma setup_gates_come_first_witness :
  exists parsed verified st1 issues st2,
    parseProject Sample.student "s" "refs/tags/v1.0.0" = Return parsed /\
    verifyRelease Sample.ready Sample.student (version parsed) initial
      = (Return verified, st1) /\
    checkIssues Sample.ready Sample.student (string_of_number (project parsed)) st1
      = (Return issues, st2).
Proof.
  apply (setup_gates_come_first Sample.ready Sample.student "token" "s" "refs/tags/v1.0.0"
           initial (checkoutRun "v1.0.0" (Return 0))).
  - vm_compute. repeat first [apply list_elem_of_here | apply list_elem_of_further].
  - reflexivity.
Defined.

Lemma setup_branch_of_reference_witness :
  exists s,
    (Setup.prepare Sample.ready Sample.student "token" "s" "refs/tags/v1.0.0" initial).1
      = Return s /\
    exists v,
      last_segment "refs/tags/v1.0.0" v /\ version_form v /\
      version (st_parsed s) = v /\ st_branch s = "review/" +:+ v.
Proof.
  eexists. split; [vm_compute; reflexivity|].
  apply (setup_branch_of_reference Sample.ready Sample.student "token" "s"
           "refs/tags/v1.0.0" initial).
  vm_compute. reflexivity.
Defined.

(** ** The request sequence before it turns to the forge *)

Lemma upToScans_runs_only w saved :
  appends (fun e => is_run e = true) (upToScans w saved).
Proof.
  unfold upToScans, lift, displayEnvironment, checkCompile. appending.
Qed.

(** X18. Until the branch is pushed the request sequence only runs
    subprocesses and sends nothing to the forge. It gets there only after
    nine commands, in this order: the three version displays, the compile
    and the listing of the classes with exit code 0, the two scans with 1,
    the commit and the push with 0. *)
Theorem request_commands_before_forge w ctx saved rest st :
  appends (fun e => is_run e = true) (untilForge w saved) /\
  body w ctx saved rest st =
    bind (untilForge w saved)
         (fun states =>
            bind (getMilestone w ctx (field states "project")) (fun milestone =>
            bind (getPullRequests w ctx (field states "project")) (fun pulls =>
            rest states milestone pulls))) st /\
  (forall states, (untilForge w saved st).1 = Return states ->
     restoreStates saved ∅ = Return states /\
     events_of (untilForge w saved) st =
       [ran "java" ["--version"] None 0;
        ran "javac" ["--version"] None 0;
        ran "mvn" ["--version"] None 0;
        ran "mvn" ["-ntp";
                   dq +:+ "-DcompileOptionXlint=-Xlint:all" +:+ dq;
                   dq +:+ "-DcompileOptionXdoclint=-Xdoclint:all/private" +:+ dq;
                   "-DcompileOptionFail=true"; "-Dmaven.compiler.failOnWarning=true";
                   "-Dmaven.compiler.showWarnings=true"; "clean"; "compile"]
            (Some "project-main/") 0;
        ran "ls" ["-m"; "project-main/target/classes"] None 0;
        ran "grep" todoParam (Some "project-main/src/main/java") 1;
        ran "grep" mainParam (Some "project-main/src/main/java") 1;
        ran "git" (commitParam states) (Some "project-main/") 0;
        ran "git" ["push"; "-u"; "origin"; field states "branch"]
            (Some "project-main/") 0]).
Proof.
  split; [|split].
  - unfold untilForge. apply appends_bind; [apply upToScans_runs_only|].
    intros states. unfold checkCleanup, createBranch. appending.
  - unfold body, untilForge, upToScans, fromCommit, createBranch, bind, ret.
    destruct (lift (restoreStates saved ∅) st) as [[states|e] st1]; [|reflexivity].
    destruct (displayEnvironment w st1) as [[[]|e] st2]; [|reflexivity].
    destruct (checkCompile w st2) as [[[]|e] st3]; [|reflexivity].
    destruct (checkCleanup w st3) as [[[]|e] st4]; [|reflexivity].
    destruct (checkExec w "git" _ st4) as [[code|e] st5]; [|reflexivity].
    destruct (checkExec w "git" _ st5) as [[code'|e] st6]; reflexivity.
  - intros states.
    unfold untilForge, upToScans, lift, displayEnvironment, checkCompile, checkCleanup,
      createBranch.
    destruct (restoreStates saved ∅) as [restored|e]; [|discriminate].
    unfold_sequence. unfold ran, sourceDir, mainDir.
    repeat match goal with
    | |- context [exec ?w ?h ?c ?p ?d] =>
        let r := fresh "code" in
        destruct (exec w h c p d) as [r|?];
        [try (destruct (Z.eqb_spec r 0); [try subst r|]);
         try (destruct (Z.eqb_spec r 1); [try subst r|]) |];
        cbn [negb trace warnings fst snd Z.eqb Pos.eqb]
    end.
    all: intros H; try discriminate H.
    injection H as <-. split; [reflexivity|]. now normalise_events.
Qed.

Lemma request_commands_before_forge_witness :
  restoreStates ∅ ∅ = Return ∅ /\
  events_of (untilForge Sample.tidy ∅) initial =
    [ran "java" ["--version"] None 0;
     ran "javac" ["--version"] None 0;
     ran "mvn" ["--version"] None 0;
     ran "mvn" ["-ntp";
                dq +:+ "-DcompileOptionXlint=-Xlint:all" +:+ dq;
                dq +:+ "-DcompileOptionXdoclint=-Xdoclint:all/private" +:+ dq;
                "-DcompileOptionFail=true"; "-Dmaven.compiler.failOnWarning=true";
                "-Dmaven.compiler.showWarnings=true"; "clean"; "compile"]
         (Some "project-main/") 0;
     ran "ls" ["-m"; "project-main/target/classes"] None 0;
     ran "grep" todoParam (Some "project-main/src/main/java") 1;
     ran "grep" mainParam (Some "project-main/src/main/java") 1;
     ran "git" (commitParam ∅) (Some "project-main/") 0;
     ran "git" ["push"; "-u"; "origin"; field ∅ "branch"] (Some "project-main/") 0].
Proof.
  apply (proj2 (proj2 (request_commands_before_forge Sample.tidy Sample.student ∅
                         Sample.no_rest initial))).
  reflexivity.
Defined.

(** ** Opening the pull request *)

Lemma cell_date_pure d at_ st : (cell_date d at_ st).2 = st.
Proof. unfold cell_date. destruct at_ as [[|c s]|]; reflexivity. Qed.

(** X19. The row of an earlier pull request is built from whatever the
    review listing answers: its status is never looked at. The approvals
    column holds the logins of the reviews whose state is APPROVED, in the
    order of the listing; a draft is shown as draft whatever its state. *)
Theorem review_row_ignores_status d ctx pull st s reviews createdDate closedDate :
  pulls_listReviews d ctx (pull_number pull) = Resolved {| status := s; data := reviews |} ->
  (cell_date d (pull_created_at pull) st).1 = Return createdDate ->
  (cell_date d (pull_closed_at pull) st).1 = Return closedDate ->
  review_row d ctx pull st =
  (Return ("| [#" +:+ string_of_Z (pull_number pull) +:+ "](" +:+ pull_html_url pull +:+
           ") | " +:+ (if pull_draft pull then "draft" else pull_state pull) +:+ " | " +:+
           labels_cell pull +:+ " | " +:+
           String.concat ", "
             (map review_login
                (List.filter (fun x => String.eqb (review_state x) "APPROVED") reviews)) +:+
           " | " +:+ createdDate +:+ " | " +:+ closedDate +:+ " |"),
   after st (Request "pulls.listReviews")).
Proof.
  intros Hreviews Hcreated Hclosed. unfold review_row, bind.
  pose proof (cell_date_pure d (pull_created_at pull) st) as Hst1.
  destruct (cell_date d (pull_created_at pull) st) as [c1 st1]. cbn [fst snd] in *.
  subst c1 st1.
  pose proof (cell_date_pure d (pull_closed_at pull) st) as Hst2.
  destruct (cell_date d (pull_closed_at pull) st) as [c2 st2]. cbn [fst snd] in *.
  subst c2 st2. rewrite Hreviews. reflexivity.
Qed.

Lemma review_row_ignores_status_witness :
  review_row Sample.front_desk Sample.student Sample.earlier_pull initial =
  (Return ("| [#" +:+ string_of_Z 4 +:+ "](" +:+ "https://github.com/student/project/pull/4" +:+
           ") | " +:+ "closed" +:+ " | " +:+
           labels_cell Sample.earlier_pull +:+ " | " +:+
           String.concat ", "
             (map review_login
                (List.filter (fun x => String.eqb (review_state x) "APPROVED")
                   [ {| review_state := "APPROVED"; review_login := "professor" |};
                     {| review_state := "COMMENTED"; review_login := "assistant" |} ])) +:+
           " | " +:+ "2021-09-20T18:00:00Z" +:+ " | " +:+ "2021-09-24T18:00:00Z" +:+ " |"),
   after initial (Request "pulls.listReviews")).
Proof.
  apply (review_row_ignores_status Sample.front_desk Sample.student Sample.earlier_pull
           initial 200); reflexivity.
Defined.

Lemma review_rows_trace d ctx pulls : forall rows st result,
  (review_rows d ctx pulls rows st).1 = Return result ->
  trace (review_rows d ctx pulls rows st).2 =
    trace st ++ replicate (length pulls) (Request "pulls.listReviews") /\
  exists added, result = rows ++ added /\ length added = length pulls.
Proof.
  induction pulls as [|pull pulls IH]; intros rows st result.
  - cbn [review_rows ret fst snd length replicate]. intros [= <-].
    rewrite app_nil_r. split; [reflexivity|]. exists []. now rewrite app_nil_r.
  - cbn [review_rows]. unfold bind.
    assert (Hrow : forall row st1, review_row d ctx pull st = (Return row, st1) ->
                                   trace st1 = trace st ++ [Request "pulls.listReviews"]).
    { intros row st1. unfold review_row, bind, await, emit, ret, throw.
      pose proof (cell_date_pure d (pull_created_at pull) st) as H1.
      destruct (cell_date d (pull_created_at pull) st) as [[c1|e1] st1']; cbn [snd] in H1;
        [subst st1'|discriminate].
      pose proof (cell_date_pure d (pull_closed_at pull) st) as H2.
      destruct (cell_date d (pull_closed_at pull) st) as [[c2|e2] st2']; cbn [snd] in H2;
        [subst st2'|discriminate].
      destruct (pulls_listReviews d ctx (pull_number pull)) as [r|e]; [|discriminate].
      now intros [= _ <-]. }
    destruct (review_row d ctx pull st) as [[row|e] st1]; [|discriminate].
    specialize (Hrow row st1 eq_refl). cbv beta iota. intros H.
    destruct (IH _ _ _ H) as (Htrace & added & -> & Hlen).
    split.
    + rewrite Htrace, Hrow, <- app_assoc. reflexivity.
    + exists (row :: added). rewrite <- app_assoc. split; [reflexivity|].
      cbn [length]. now rewrite Hlen.
Qed.

(** X20. Without earlier pull requests the table is N/A and the forge is
    not asked anything. Otherwise the table has the two header lines and
    one row for each pull request, and its reviews were listed once for
    each, nothing else being requested. *)
Theorem review_table_requests d ctx pulls st table :
  reviewList d ctx [] st = (Return "N/A", st) /\
  (pulls <> [] ->
   (reviewList d ctx pulls st).1 = Return table ->
   events_of (reviewList d ctx pulls) st =
     replicate (length pulls) (Request "pulls.listReviews") /\
   exists rows,
     length rows = length pulls /\
     table = String.concat nl
               ("| Pull | Status | Labels | Approvals | Created | Closed |" ::
                "|:----:|:------:|:-------|:----------|:--------|:-------|" :: rows)).
Proof.
  split; [reflexivity|]. intros Hne. unfold events_of, reviewList.
  destruct pulls as [|pull pulls]; [now destruct Hne|].
  set (header := ["| Pull | Status | Labels | Approvals | Created | Closed |";
                  "|:----:|:------:|:-------|:----------|:--------|:-------|"]).
  unfold bind.
  pose proof (review_rows_trace d ctx (pull :: pulls) header st) as Hrows.
  destruct (review_rows d ctx (pull :: pulls) header st) as [[rows|e] st1];
    [|discriminate].
  destruct (Hrows rows eq_refl) as (Htrace & added & -> & Hlen).
  cbn [fst snd ret] in *. intros [= <-]. rewrite Htrace, events_of_app.
  split; [reflexivity|]. now exists added.
Qed.

Lemma review_table_requests_witness :
  events_of (reviewList Sample.front_desk Sample.student [Sample.earlier_pull]) initial =
    replicate (length [Sample.earlier_pull]) (Request "pulls.listReviews") /\
  exists rows,
    length rows = length [Sample.earlier_pull] /\
    (reviewList Sample.front_desk Sample.student [Sample.earlier_pull] initial).1 =
      Return (String.concat nl
                ("| Pull | Status | Labels | Approvals | Created | Closed |" ::
                 "|:----:|:------:|:-------|:----------|:--------|:-------|" :: rows)).
Proof.
  destruct (proj2 (review_table_requests Sample.front_desk Sample.student
                     [Sample.earlier_pull] initial _) ltac:(discriminate) eq_refl)
    as (Hevents & rows & Hlen & Htable).
  split; [exact Hevents|]. exists rows. split; [exact Hlen|]. now rewrite <- Htable.
Defined.

Lemma review_rows_requests_reviews_only d ctx pulls : forall rows,
  appends (fun e => e = Request "pulls.listReviews") (review_rows d ctx pulls rows).
Proof.
  induction pulls as [|pull pulls IH]; intros rows; cbn [review_rows].
  - apply appends_ret.
  - apply appends_bind; [|intros row; apply IH].
    unfold review_row, cell_date, lift. appending.
Qed.

Lemma reviewList_requests_reviews_only d ctx pulls :
  appends (fun e => e = Request "pulls.listReviews") (reviewList d ctx pulls).
Proof.
  unfold reviewList. destruct pulls; [apply appends_ret|].
  apply appends_bind; [apply review_rows_requests_reviews_only|].
  intros rows. apply appends_ret.
Qed.

(** Splits on the answers of the forge while the pull request is opened. *)
Ltac split_replies :=
  repeat match goal with
  | |- context [match ?r with Resolved _ => _ | Rejected _ => _ end] =>
      destruct r as [[? ?]|?] eqn:?; cbn [status data]
  | |- context [negb (?s =? ?n)] =>
      destruct (Z.eqb_spec s n); [try subst s|]; cbn [negb]
  | |- context [match ?o with Some _ => _ | None => _ end] =>
      destruct o eqn:?
  end.

(** X21. The pull request is opened step by step, and no step is taken
    before the one before it was accepted: labels, milestone and assignee
    are only set on a pull request that was created (as a draft onto main,
    from the saved branch) with status 201; reviewers are only requested
    after that update answered 200; the instructions are only posted after
    the request for the two reviewers answered 201. *)
Theorem pull_request_steps_in_order d ctx states milestone pulls st :
  let events := events_of (createPullRequest d ctx states milestone pulls) st in
  (Request "issues.update" ∈ events ->
     exists request made,
       pulls_create d ctx request = Resolved {| status := 201; data := made |} /\
       cd_draft request = true /\ cd_base request = "main" /\
       cd_head request = states !! "branch") /\
  (Request "pulls.requestReviewers" ∈ events ->
     exists update type,
       issues_update d ctx update = Resolved {| status := 200; data := tt |} /\
       states !! "type" = Some type /\
       ud_labels update = [Some ("project" +:+ field states "project");
                           Some (toLowerCase type); states !! "releaseTag"] /\
       ud_milestone update = ms_number milestone /\
       ud_assignees update = [actor d]) /\
  (Request "issues.createComment" ∈ events ->
     exists reviewers,
       pulls_requestReviewers d ctx reviewers = Resolved {| status := 201; data := tt |} /\
       rd_reviewers reviewers = ["mtquach2"; "ybsolomon"]).
Proof.
  intros events. pattern events.
  match goal with |- ?P events => set (Q := P) end.
  subst events. unfold events_of, createPullRequest. unfold bind at 1.
  destruct (reviewList_requests_reviews_only d ctx pulls st) as (new & Htrace & Hnew).
  rewrite Forall_forall in Hnew.
  destruct (reviewList d ctx pulls st) as [[table|e] st1]; cbn [snd] in Htrace.
  2: { cbn [snd]. rewrite Htrace, events_of_app. subst Q. cbv beta.
       repeat split; intros Hin; apply Hnew in Hin; discriminate Hin. }
  unfold lift, bind at 1.
  destruct (describe d states table) as [body|e].
  2: { cbv beta iota. cbn [snd]. rewrite Htrace, events_of_app. subst Q. cbv beta.
       repeat split; intros Hin; apply Hnew in Hin; discriminate Hin. }
  cbv beta iota zeta delta [bind await emit info dump ret throw].
  split_replies.
  all: cbn [trace snd]; rewrite Htrace, <- ?app_assoc, events_of_app; cbn [app].
  all: subst Q; cbv beta.
  all: repeat split; intros Hin; apply elem_of_app in Hin as [Hin|Hin];
    try (apply Hnew in Hin; discriminate Hin);
    repeat (apply elem_of_cons in Hin as [Hin|Hin]; [try discriminate Hin|]);
    try (now apply elem_of_nil in Hin).
  all: repeat match goal with u : unit |- _ => destruct u end.
  all: try (eexists; eexists; split; [eassumption|]; repeat split; reflexivity).
  all: try (eexists; split; [eassumption|]; reflexivity).
Qed.

Lemma pull_request_steps_in_order_witness :
  exists reviewers,
    pulls_requestReviewers Sample.front_desk Sample.student reviewers
      = Resolved {| status := 201; data := tt |} /\
    rd_reviewers reviewers = ["mtquach2"; "ybsolomon"].
Proof.
  apply (proj2 (proj2 (pull_request_steps_in_order Sample.front_desk Sample.student
                         Sample.restored Sample.project2_milestone
                         [Sample.earlier_pull] initial))).
  vm_compute. repeat first [apply list_elem_of_here | apply list_elem_of_further].
Defined.

(** X22. When the restored states hold no review type, the pull request is
    created all the same, and only then does the sequence stop with a
    TypeError, at the label that needs the type in lower case: the new pull
    request is left without labels, milestone, assignee, reviewers and
    instructions. *)
Theorem missing_type_after_creation d ctx states milestone pulls st table st1 body made :
  reviewList d ctx pulls st = (Return table, st1) ->
  describe d states table = Return body ->
  pulls_create d ctx
    {| cd_title := "Project " +:+ field states "releaseTag" +:+ " " +:+
                   field states "type" +:+ " Code Review";
       cd_head := states !! "branch";
       cd_base := "main";
       cd_body := body;
       cd_draft := true;
       cd_maintainer_can_modify := true |}
    = Resolved {| status := 201; data := made |} ->
  states !! "type" = None ->
  exists text,
    createPullRequest d ctx states milestone pulls st =
    (Throw (TypeError text), after st1 (Request "pulls.create")).
Proof.
  intros Htable Hbody Hcreate Htype. eexists.
  unfold createPullRequest. unfold bind at 1. rewrite Htable.
  unfold lift, bind at 1. rewrite Hbody.
  cbv beta iota zeta delta [bind await emit info dump ret throw].
  rewrite Hcreate. cbn [status data]. change (negb (201 =? 201)) with false.
  cbv beta iota. rewrite Htype. reflexivity.
Qed.

Lemma missing_type_after_creation_witness :
  exists text,
    createPullRequest Sample.front_desk Sample.student ∅ Sample.project2_milestone [] initial =
    (Throw (TypeError text), after initial (Request "pulls.create")).
Proof.
  apply (missing_type_after_creation Sample.front_desk Sample.student ∅
           Sample.project2_milestone [] initial "N/A" initial "N/A"
           {| created_number := 7;
              created_html_url := "https://github.com/student/project/pull/7" |});
    reflexivity.
Defined.
